(** * FlightPath Server provider for Airflow: hook and operators

    A shallow embedding of
      - flightpath_server_provider/hooks/flightpath_server.py
      - flightpath_server_provider/operators/flightpath_server.py
    together with the parts of the Python runtime and of the [requests],
    [json] and [base64] libraries the two modules call into.

    Conventions.
      - A Python [str] is a [string], each character read as a code point
        below 256; [bytes] is [list byte].
      - A Python exception is a value of [exn]: its class and [str(e)].
      - Effectful code lives in the monad [M]: it threads the [World] (the
        requests handed to [requests.post], the local files) and ends in
        [Return v] or in [Raise e]. What the surroundings answer (the
        connection store, the remote server, the file system's permissions)
        is the [Env].
      - [self.log.info] calls leave the [World] alone and are not modelled. *)

From Stdlib Require Import ZArith NArith List Bool Lia.
From Stdlib Require Import Strings.String Strings.Ascii Strings.Byte DecimalString.
From Stdlib Require Import Floats.
From stdpp Require Import base gmap strings.
Import ListNotations.
Local Open Scope string_scope.
Local Open Scope list_scope.
Local Open Scope Z_scope.

(** ** Python values *)

(** The values [json.loads] can produce. *)
#[warnings="-register-all"]
Inductive value : Type :=
| VNone
| VBool (b : bool)
| VInt (z : Z)
| VFloat (f : float)
| VStr (s : string)
| VList (l : list value)
| VDict (d : list (string * value)).

(** [bool(v)], the test behind [if v:] and [not v]. *)
Definition truthy (v : value) : bool :=
  match v with
  | VNone => false
  | VBool b => b
  | VInt z => negb (z =? 0)
  | VFloat f => negb (PrimFloat.eqb f PrimFloat.zero)
  | VStr s => negb (String.eqb s EmptyString)
  | VList l => match l with [] => false | _ => true end
  | VDict d => match d with [] => false | _ => true end
  end.

(** An optional [str] ([str | None]) as a value. *)
Definition of_opt_str (o : option string) : value :=
  match o with Some s => VStr s | None => VNone end.

(** The [str] held by an optional [str] that is truthy: neither [None]
    nor empty. *)
Definition if_truthy (o : option string) : option string :=
  match o with
  | Some s => if truthy (VStr s) then Some s else None
  | None => None
  end.

(** A keyword argument with a default: [None] when the caller leaves it out. *)
Definition with_default {A : Type} (default : A) (arg : option A) : A :=
  match arg with Some a => a | None => default end.

(** [d.get(key)] on a dict held as an association list in insertion order. *)
Fixpoint assoc_get {A : Type} (d : list (string * A)) (key : string) : option A :=
  match d with
  | [] => None
  | (k, v) :: d' => if String.eqb k key then Some v else assoc_get d' key
  end.

(** [d[key] = v]: replaces the value in place, or appends a new key. *)
Fixpoint dict_setitem {A : Type} (d : list (string * A)) (key : string) (v : A)
  : list (string * A) :=
  match d with
  | [] => [(key, v)]
  | (k, x) :: d' =>
      if String.eqb k key then (k, v) :: d' else (k, x) :: dict_setitem d' key v
  end.

Definition keys {A : Type} (d : list (string * A)) : list string := map fst d.

(** ** Exceptions *)

Inductive exc_class : Type :=
| AirflowException
| AirflowNotFoundException      (* airflow.exceptions, an AirflowException *)
| NameError
| UnboundLocalError             (* a NameError *)
| AttributeError
| TypeError
| ValueError
| OSError
| binascii_Error                (* a ValueError *)
| RequestException              (* requests.exceptions.RequestException *)
| HTTPError                     (* a RequestException *)
| ConnectionError               (* a RequestException *)
| JSONDecodeError               (* json.JSONDecodeError, a ValueError *)
| requests_JSONDecodeError.     (* requests.exceptions.JSONDecodeError:
                                   a RequestException and a json.JSONDecodeError *)

Record exn : Type := mk_exn { exc_type : exc_class; exc_str : string }.

Definition exc_class_eqb (a b : exc_class) : bool :=
  match a, b with
  | AirflowException, AirflowException
  | AirflowNotFoundException, AirflowNotFoundException
  | NameError, NameError
  | UnboundLocalError, UnboundLocalError
  | AttributeError, AttributeError
  | TypeError, TypeError
  | ValueError, ValueError
  | OSError, OSError
  | binascii_Error, binascii_Error
  | RequestException, RequestException
  | HTTPError, HTTPError
  | ConnectionError, ConnectionError
  | JSONDecodeError, JSONDecodeError
  | requests_JSONDecodeError, requests_JSONDecodeError => true
  | _, _ => false
  end.

(** The direct base classes, among the classes above. *)
Definition bases (c : exc_class) : list exc_class :=
  match c with
  | AirflowNotFoundException => [AirflowException]
  | UnboundLocalError => [NameError]
  | binascii_Error => [ValueError]
  | HTTPError => [RequestException]
  | ConnectionError => [RequestException]
  | JSONDecodeError => [ValueError]
  | requests_JSONDecodeError => [RequestException; JSONDecodeError]
  | _ => []
  end.

(** [issubclass(c, d)]; the hierarchy above is two levels deep. *)
Definition issubclass (c d : exc_class) : bool :=
  exc_class_eqb c d
  || existsb (fun b => exc_class_eqb b d || existsb (fun b' => exc_class_eqb b' d) (bases b))
       (bases c).

(** [isinstance(e, d)], the test of an [except d] clause. *)
Definition isinstance (e : exn) (d : exc_class) : bool := issubclass (exc_type e) d.

(** Looking a class name up in a module's global names: an unbound name
    is a [NameError] at the point of use. *)
Definition lookup_exception (module_names : list string) (name : string) (c : exc_class)
  (msg : string) : exn :=
  if existsb (String.eqb name) module_names
  then mk_exn c msg
  else mk_exn NameError ("name '" +:+ name +:+ "' is not defined").

(** ** Strings *)

(** [t in s] for strings. *)
Fixpoint contains (t s : string) : bool :=
  String.prefix t s ||
  match s with
  | EmptyString => false
  | String _ s' => contains t s'
  end.

(** [s] includes [t]: [t] occurs in [s] as a contiguous piece. *)
Definition includes (s t : string) : Prop :=
  exists pre post : string, s = pre +:+ t +:+ post.

(** [str(n)] for an integer. *)
Definition str_of_Z (z : Z) : string := NilZero.string_of_int (Z.to_int z).

(** ** json.dumps *)

(** The double quote character. *)
Definition dquote : ascii := ascii_of_N 34.

Definition hex_digit (n : N) : ascii :=
  if (n <? 10)%N then ascii_of_N (48 + n) else ascii_of_N (87 + n).

(** The escape of one character under [ensure_ascii=True]: everything
    outside [' '..'~'], the quote and the backslash. *)
Definition escape_char (c : ascii) : string :=
  let n := N_of_ascii c in
  if (n =? 34)%N then String "\" (String dquote EmptyString)
  else if (n =? 92)%N then "\\"
  else if (n =? 10)%N then "\n"
  else if (n =? 13)%N then "\r"
  else if (n =? 9)%N then "\t"
  else if (n =? 12)%N then "\f"
  else if (n =? 8)%N then "\b"
  else if ((32 <=? n) && (n <=? 126))%N then String c EmptyString
  else "\u00" +:+ String (hex_digit (n / 16)) (String (hex_digit (n mod 16)) EmptyString).

Fixpoint escape_string (s : string) : string :=
  match s with
  | EmptyString => EmptyString
  | String c s' => escape_char c +:+ escape_string s'
  end.

Definition dumps_str (s : string) : string :=
  String dquote (escape_string s +:+ String dquote EmptyString).

Fixpoint dumps_items (d : list (string * string)) : string :=
  match d with
  | [] => EmptyString
  | [(k, v)] => dumps_str k +:+ ": " +:+ dumps_str v
  | (k, v) :: d' => dumps_str k +:+ ": " +:+ dumps_str v +:+ ", " +:+ dumps_items d'
  end.

(** [json.dumps(data)] for [data] a dict from [str] to [str], or [None]. *)
Definition json_dumps (data : option (list (string * string))) : string :=
  match data with
  | None => "null"
  | Some d => "{" +:+ dumps_items d +:+ "}"
  end.


(** ** base64.b64decode *)

(** The value of a character of the standard base64 alphabet. *)
Definition b64_value (c : ascii) : option N :=
  let n := N_of_ascii c in
  if ((65 <=? n) && (n <=? 90))%N then Some (n - 65)%N            (* A-Z *)
  else if ((97 <=? n) && (n <=? 122))%N then Some (n - 71)%N      (* a-z *)
  else if ((48 <=? n) && (n <=? 57))%N then Some (n + 4)%N        (* 0-9 *)
  else if (n =? 43)%N then Some 62%N                              (* + *)
  else if (n =? 47)%N then Some 63%N                              (* / *)
  else None.

(** An [unsigned char] store: the low eight bits. *)
Definition to_byte (n : N) : byte := byte_of_ascii (ascii_of_N (n mod 256)).

Definition Incorrect_padding : exn := mk_exn binascii_Error "Incorrect padding".

Definition Invalid_length (bytes_out : nat) : exn :=
  mk_exn binascii_Error
    ("Invalid base64-encoded string: number of data characters ("
     +:+ str_of_Z (Z.of_nat (bytes_out / 3 * 4 + 1))
     +:+ ") cannot be 1 more than a multiple of 4").

(** [binascii.a2b_base64] without [strict_mode]: characters outside the
    alphabet are skipped, a pad that completes a quad ends the decoding,
    other pads are skipped; [out] is the output so far, newest byte first. *)
Fixpoint a2b_base64_loop (input : list ascii) (quad_pos : nat) (leftchar : N)
  (pads : nat) (out : list byte) : exn + list byte :=
  match input with
  | [] =>
      match quad_pos with
      | O => inr (rev out)
      | 1%nat => inl (Invalid_length (List.length out))
      | _ => inl Incorrect_padding
      end
  | c :: rest =>
      if (N_of_ascii c =? 61)%N then                                (* '=' *)
        if (2 <=? quad_pos)%nat then
          if (4 <=? quad_pos + S pads)%nat then inr (rev out)
          else a2b_base64_loop rest quad_pos leftchar (S pads) out
        else a2b_base64_loop rest quad_pos leftchar pads out
      else
        match b64_value c with
        | None => a2b_base64_loop rest quad_pos leftchar pads out
        | Some this_ch =>
            match quad_pos with
            | O => a2b_base64_loop rest 1 this_ch 0 out
            | 1%nat =>
                a2b_base64_loop rest 2 (N.land this_ch 15) 0
                  (to_byte (N.lor (N.shiftl leftchar 2) (N.shiftr this_ch 4)) :: out)
            | 2%nat =>
                a2b_base64_loop rest 3 (N.land this_ch 3) 0
                  (to_byte (N.lor (N.shiftl leftchar 4) (N.shiftr this_ch 2)) :: out)
            | _ =>
                a2b_base64_loop rest 0 0 0
                  (to_byte (N.lor (N.shiftl leftchar 6) this_ch) :: out)
            end
        end
  end.

Definition a2b_base64 (s : string) : exn + list byte :=
  a2b_base64_loop (list_ascii_of_string s) 0 0 0 [].

Definition is_ascii (s : string) : bool :=
  forallb (fun c => (N_of_ascii c <? 128)%N) (list_ascii_of_string s).

(** [type(v).__name__] *)
Definition type_name (v : value) : string :=
  match v with
  | VNone => "NoneType"
  | VBool _ => "bool"
  | VInt _ => "int"
  | VFloat _ => "float"
  | VStr _ => "str"
  | VList _ => "list"
  | VDict _ => "dict"
  end.

(** [base64.b64decode(v)] with its default arguments: a [str] is encoded
    to ASCII first, and nothing else among the JSON values is bytes-like. *)
Definition b64decode (v : value) : exn + list byte :=
  match v with
  | VStr s =>
      if is_ascii s then a2b_base64 s
      else inl (mk_exn ValueError "string argument should contain only ASCII characters")
  | _ =>
      inl (mk_exn TypeError
             ("argument should be a bytes-like object or ASCII string, not '"
              +:+ type_name v +:+ "'"))
  end.

(** [s.encode()] for an ASCII [str], to write down file contents. *)
Definition bytes_of (s : string) : list byte := map byte_of_ascii (list_ascii_of_string s).


(** ** base64.b64encode *)

(** The character of the standard alphabet for a six-bit value. *)
Definition b64_char (n : N) : ascii :=
  ascii_of_N (if (n <? 26)%N then n + 65
              else if (n <? 52)%N then n + 71
              else if (n <? 62)%N then n - 4
              else if (n =? 62)%N then 43 else 47)%N.

Definition b64_pad : ascii := ascii_of_N 61.

(** [binascii.b2a_base64(data, newline=False)]: four characters for
    three bytes, the last group padded. *)
Fixpoint b2a_base64 (data : list byte) : list ascii :=
  match data with
  | [] => []
  | [b0] =>
      let n0 := Byte.to_N b0 in
      [b64_char (N.shiftr n0 2); b64_char (N.shiftl (N.land n0 3) 4); b64_pad; b64_pad]
  | [b0; b1] =>
      let n0 := Byte.to_N b0 in
      let n1 := Byte.to_N b1 in
      [b64_char (N.shiftr n0 2);
       b64_char (N.lor (N.shiftl (N.land n0 3) 4) (N.shiftr n1 4));
       b64_char (N.shiftl (N.land n1 15) 2);
       b64_pad]
  | b0 :: b1 :: b2 :: rest =>
      let n0 := Byte.to_N b0 in
      let n1 := Byte.to_N b1 in
      let n2 := Byte.to_N b2 in
      b64_char (N.shiftr n0 2)
      :: b64_char (N.lor (N.shiftl (N.land n0 3) 4) (N.shiftr n1 4))
      :: b64_char (N.lor (N.shiftl (N.land n1 15) 2) (N.shiftr n2 6))
      :: b64_char (N.land n2 63)
      :: b2a_base64 rest
  end.

(** [base64.b64encode(data).decode("utf-8")], as the repository's test of
    the pull-data operator prepares the [file] field. *)
Definition b64encode (data : list byte) : string := string_of_list_ascii (b2a_base64 data).

(** ** The surroundings: connection store, HTTP, files *)

(** An Airflow connection, as far as the hook reads it. *)
Record Connection : Type := {
  host : option string;
  password : option string
}.

(** What is handed to [requests.post]. *)
Record Request : Type := {
  req_url : string;
  req_headers : list (string * string);
  req_data : string
}.

(** A [requests.Response], as far as the hook uses it. [json_result] is
    what [response.json()] does: the parsed body, or the exception it
    raises on a body that is not JSON. *)
Record Response : Type := {
  status_code : Z;
  reason : string;
  url : string;
  text : string;
  json_result : exn + value
}.

Record Env : Type := {
  (** [BaseHook.get_connection(conn_id)] *)
  get_connection : string -> exn + Connection;
  (** the outcome of [requests.post] on a request: a network failure or a response *)
  post_outcome : Request -> exn + Response;
  (** [open(path, "wb")]: the error it raises, if any *)
  open_wb_error : string -> option exn
}.

Record World : Type := {
  (** the requests handed to [requests.post], oldest first *)
  sent : list Request;
  (** the local files and their contents *)
  files : gmap string (list byte)
}.

(** ** The monad of effectful code *)

Inductive outcome (A : Type) : Type :=
| Return (a : A)
| Raise (e : exn).
Arguments Return {A} a.
Arguments Raise {A} e.

Definition M (A : Type) : Type := World -> outcome A * World.

Definition ret {A : Type} (a : A) : M A := fun w => (Return a, w).

Definition raise {A : Type} (e : exn) : M A := fun w => (Raise e, w).

Definition bind {A B : Type} (m : M A) (k : A -> M B) : M B :=
  fun w =>
    match m w with
    | (Return a, w') => k a w'
    | (Raise e, w') => (Raise e, w')
    end.

Notation "'do' x <- m ; k" := (bind m (fun x => k))
  (at level 10, x name, m at level 100, k at level 200).
Notation "'run' m ; k" := (bind m (fun _ => k))
  (at level 10, m at level 100, k at level 200).

(** Lifting a pure computation that may raise. *)
Definition lift {A : Type} (r : exn + A) : M A :=
  match r with
  | inl e => raise e
  | inr a => ret a
  end.

(** ** requests *)

Module requests.

(** [requests.post(url, headers=headers, data=data)] *)
Definition post (env : Env) (url : string) (headers : list (string * string))
  (data : string) : M Response :=
  fun w =>
    let req := {| req_url := url; req_headers := headers; req_data := data |} in
    lift (post_outcome env req) {| sent := sent w ++ [req]; files := files w |}.

(** The message of [Response.raise_for_status], empty when the status is
    no error. *)
Definition http_error_msg (r : Response) : string :=
  if (400 <=? status_code r) && (status_code r <? 500) then
    str_of_Z (status_code r) +:+ " Client Error: " +:+ reason r
    +:+ " for url: " +:+ url r
  else if (500 <=? status_code r) && (status_code r <? 600) then
    str_of_Z (status_code r) +:+ " Server Error: " +:+ reason r
    +:+ " for url: " +:+ url r
  else EmptyString.

(** [response.raise_for_status()] *)
Definition raise_for_status (r : Response) : M unit :=
  if String.eqb (http_error_msg r) EmptyString then ret tt
  else raise (mk_exn HTTPError (http_error_msg r)).

(** [response.json()] *)
Definition json (r : Response) : M value := lift (json_result r).

End requests.

(** ** hooks/flightpath_server.py *)

(** The names bound at the top level of the module: its imports and its class. *)
Definition hooks_module_names : list string :=
  ["annotations"; "json"; "Any"; "requests"; "AirflowException"; "BaseHook";
   "FlightPathServerHook"].

Module FlightPathServerHook.

Definition default_conn_name : string := "flightpath_server_default".

Record t : Type := {
  flightpath_server_conn_id : string;
  conn : Connection;
  base_url : string;
  api_key : string;
  headers : list (string * string)
}.

Section Methods.
Variable env : Env.

Definition new_AirflowException : string -> exn :=
  lookup_exception hooks_module_names "AirflowException" AirflowException.

Definition __init__ (flightpath_server_conn_id : option string) : M t :=
  let conn_id := with_default default_conn_name flightpath_server_conn_id in
  do conn <- lift (get_connection env conn_id);
  match if_truthy (host conn) with
  | None => raise (new_AirflowException "FlightPath Server base URL not found in connection.")
  | Some base_url =>
      match if_truthy (password conn) with
      | None =>
          raise (new_AirflowException
                   "FlightPath Server API key not found in connection (password field).")
      | Some api_key =>
          ret {| flightpath_server_conn_id := conn_id;
                 conn := conn;
                 base_url := base_url;
                 api_key := api_key;
                 headers := [("access_token", api_key);
                             ("Content-Type", "application/json");
                             ("Accept", "application/json")] |}
      end
  end.

(** The body of the [try] of [_call_api]. It also yields the local
    variable [response], [None] while it is unbound, for the handlers. *)
Definition _call_api_try (self : t) (url method : string)
  (data : option (list (string * string)))
  : World -> option Response * (outcome value * World) :=
  fun w =>
    match (if String.eqb method "POST"
           then requests.post env url (headers self) (json_dumps data)
           else raise (new_AirflowException ("Unsupported HTTP method: " +:+ method))) w
    with
    | (Raise e, w') => (None, (Raise e, w'))
    | (Return response, w') =>
        (Some response,
         (run requests.raise_for_status response; requests.json response) w')
    end.

Definition _call_api (self : t) (endpoint method : string)
  (data : option (list (string * string))) : M value :=
  fun w =>
    let url := base_url self +:+ endpoint in
    match _call_api_try self url method data w with
    | (_, (Return v, w')) => (Return v, w')
    | (response, (Raise e, w')) =>
        if isinstance e RequestException then
          raise (new_AirflowException
                   ("FlightPath Server API call failed: " +:+ exc_str e)) w'
        else if isinstance e JSONDecodeError then
          match response with
          | Some response =>
              raise (new_AirflowException
                       ("Failed to decode JSON response from FlightPath Server: "
                        +:+ exc_str e +:+ ", Response: " +:+ text response)) w'
          | None =>
              raise (mk_exn UnboundLocalError
                       "cannot access local variable 'response' where it is not associated with a value") w'
          end
        else (Raise e, w')
    end.

(** The payload [register_file] builds. *)
Definition register_file_data (project_name name file_location : string)
  (template : option string) : list (string * string) :=
  let data := [("project_name", project_name);
               ("name", name);
               ("file_location", file_location)] in
  match if_truthy template with
  | Some template => dict_setitem data "template" template
  | None => data
  end.

Definition register_file (self : t) (project_name name file_location : string)
  (template : option string) : M value :=
  let data := register_file_data project_name name file_location template in
  _call_api self "/csvpath/register_file" "POST" (Some data).

(** The payload [register_and_run] builds. *)
Definition register_and_run_data
  (project_name file_location file_name csvpaths_group_name : string)
  (method : option string) (file_template run_template : option string)
  : list (string * string) :=
  let method := with_default "collect_paths" method in
  let data := [("project_name", project_name);
               ("file_location", file_location);
               ("file_name", file_name);
               ("csvpaths_group_name", csvpaths_group_name);
               ("method", method)] in
  let data := match if_truthy file_template with
              | Some file_template => dict_setitem data "file_template" file_template
              | None => data
              end in
  match if_truthy run_template with
  | Some run_template => dict_setitem data "run_template" run_template
  | None => data
  end.

Definition register_and_run (self : t)
  (project_name file_location file_name csvpaths_group_name : string)
  (method : option string) (file_template run_template : option string) : M value :=
  let data := register_and_run_data project_name file_location file_name
                csvpaths_group_name method file_template run_template in
  _call_api self "/csvpath/register_and_run" "POST" (Some data).

(** The payload of [find_files] and of [get_file]. *)
Definition reference_data (project_name reference : string) : list (string * string) :=
  [("project_name", project_name); ("reference", reference)].

Definition find_files (self : t) (project_name reference : string) : M value :=
  let data := reference_data project_name reference in
  _call_api self "/find/find_files" "POST" (Some data).

Definition get_file (self : t) (project_name reference : string) : M value :=
  let data := reference_data project_name reference in
  _call_api self "/find/get_file" "POST" (Some data).

End Methods.

End FlightPathServerHook.

(** ** operators/flightpath_server.py *)

(** The names bound at the top level of the module: its imports and its
    classes. *)
Definition operators_module_names : list string :=
  ["annotations"; "base64"; "Any"; "BaseOperator"; "FlightPathServerHook";
   "FlightPathServerRegisterFileOperator"; "FlightPathServerRegisterAndRunOperator";
   "FlightPathServerPullDataOperator"].

(** [v.get(key)]: only a dict has the method. *)
Definition value_get (v : value) (key : string) : M value :=
  match v with
  | VDict d => ret (with_default VNone (assoc_get d key))
  | _ => raise (mk_exn AttributeError
                  ("'" +:+ type_name v +:+ "' object has no attribute 'get'"))
  end.

(** [with open(path, "wb") as f: f.write(content)] *)
Definition write_binary_file (env : Env) (path : string) (content : list byte) : M unit :=
  fun w =>
    match open_wb_error env path with
    | Some e => (Raise e, w)
    | None => (Return tt, {| sent := sent w; files := <[path := content]> (files w) |})
    end.

Module FlightPathServerRegisterFileOperator.

Record t : Type := {
  project_name : string;
  name : string;
  file_location : string;
  template : option string;
  flightpath_server_conn_id : string
}.

Definition __init__ (project_name name file_location : string)
  (template : option string) (flightpath_server_conn_id : option string) : t :=
  {| project_name := project_name;
     name := name;
     file_location := file_location;
     template := template;
     flightpath_server_conn_id :=
       with_default FlightPathServerHook.default_conn_name flightpath_server_conn_id |}.

Definition execute (env : Env) (self : t) : M value :=
  do hook <- FlightPathServerHook.__init__ env (Some (flightpath_server_conn_id self));
  do response <- FlightPathServerHook.register_file env hook
                   (project_name self) (name self) (file_location self) (template self);
  run value_get response "reference";
  ret response.

End FlightPathServerRegisterFileOperator.

Module FlightPathServerRegisterAndRunOperator.

Record t : Type := {
  project_name : string;
  file_location : string;
  file_name : string;
  csvpaths_group_name : string;
  method : string;
  file_template : option string;
  run_template : option string;
  flightpath_server_conn_id : string
}.

Definition __init__ (project_name file_location file_name csvpaths_group_name : string)
  (method : option string) (file_template run_template : option string)
  (flightpath_server_conn_id : option string) : t :=
  {| project_name := project_name;
     file_location := file_location;
     file_name := file_name;
     csvpaths_group_name := csvpaths_group_name;
     method := with_default "collect_paths" method;
     file_template := file_template;
     run_template := run_template;
     flightpath_server_conn_id :=
       with_default FlightPathServerHook.default_conn_name flightpath_server_conn_id |}.

Definition execute (env : Env) (self : t) : M value :=
  do hook <- FlightPathServerHook.__init__ env (Some (flightpath_server_conn_id self));
  do response <- FlightPathServerHook.register_and_run env hook
                   (project_name self) (file_location self) (file_name self)
                   (csvpaths_group_name self) (Some (method self))
                   (file_template self) (run_template self);
  run value_get response "register_reference";
  run value_get response "run_reference";
  ret response.

End FlightPathServerRegisterAndRunOperator.

Module FlightPathServerPullDataOperator.

Record t : Type := {
  project_name : string;
  reference : string;
  output_path : string;
  flightpath_server_conn_id : string
}.

Definition __init__ (project_name reference output_path : string)
  (flightpath_server_conn_id : option string) : t :=
  {| project_name := project_name;
     reference := reference;
     output_path := output_path;
     flightpath_server_conn_id :=
       with_default FlightPathServerHook.default_conn_name flightpath_server_conn_id |}.

(** [raise AirflowException(msg)], the name looked up in this module. *)
Definition new_AirflowException : string -> exn :=
  lookup_exception operators_module_names "AirflowException" AirflowException.

(** The part of [execute] after the call of [hook.get_file]. *)
Definition save (env : Env) (self : t) (response : value) : M string :=
  do file_content_base64 <- value_get response "file";
  if negb (truthy file_content_base64) then
    raise (new_AirflowException "No file content received from FlightPath Server.")
  else
    do file_content <- lift (b64decode file_content_base64);
    run write_binary_file env (output_path self) file_content;
    ret (output_path self).

Definition execute (env : Env) (self : t) : M string :=
  do hook <- FlightPathServerHook.__init__ env (Some (flightpath_server_conn_id self));
  do response <- FlightPathServerHook.get_file env hook (project_name self) (reference self);
  save env self response.

End FlightPathServerPullDataOperator.

(** ** Connections, responses and worlds to run the code on *)

(** A text with each apostrophe read as a double quote, to write JSON down. *)
Fixpoint dq (s : string) : string :=
  match s with
  | EmptyString => EmptyString
  | String c s' => String (if (N_of_ascii c =? 39)%N then dquote else c) (dq s')
  end.

Definition test_connection : Connection :=
  {| host := Some "http://localhost:8000"; password := Some "test_api_key" |}.

Definition ok_response (body : string) (v : value) : Response :=
  {| status_code := 200; reason := "OK"; url := EmptyString; text := body;
     json_result := inr v |}.

(** The surroundings of the tests: one connection, a server that answers
    every request with [r], every path writable. *)
Definition test_env (r : Response) : Env :=
  {| get_connection := fun _ => inr test_connection;
     post_outcome := fun _ => inr r;
     open_wb_error := fun _ => None |}.

Definition world0 : World := {| sent := []; files := ∅ |}.

(** The hook that [__init__] builds from [test_connection]. *)
Definition test_hook : FlightPathServerHook.t :=
  {| FlightPathServerHook.flightpath_server_conn_id := "flightpath_server_default";
     FlightPathServerHook.conn := test_connection;
     FlightPathServerHook.base_url := "http://localhost:8000";
     FlightPathServerHook.api_key := "test_api_key";
     FlightPathServerHook.headers := [("access_token", "test_api_key");
                                      ("Content-Type", "application/json");
                                      ("Accept", "application/json")] |}.

(** A server behind a failing gateway: status 502 and an HTML body. *)
Definition bad_gateway : Response :=
  {| status_code := 502; reason := "Bad Gateway";
     url := "http://localhost:8000/find/get_file";
     text := "<html><h1>502 Bad Gateway</h1></html>";
     json_result := inl (mk_exn JSONDecodeError "Expecting value: line 1 column 1 (char 0)") |}.

(** A server that answers 300 with a JSON body. *)
Definition multiple_choices : Response :=
  {| status_code := 300; reason := "Multiple Choices";
     url := "http://localhost:8000/find/find_files";
     text := dq "{'paths': []}";
     json_result := inr (VDict [("paths", VList [])]) |}.

(** A 200 answer whose body is not JSON, the parse error raised as
    [json.JSONDecodeError], as in the repository's test. *)
Definition invalid_json : Response :=
  {| status_code := 200; reason := "OK";
     url := "http://localhost:8000/csvpath/register_file";
     text := "Invalid JSON response";
     json_result := inl (mk_exn JSONDecodeError "Invalid JSON: line 1 column 1 (char 0)") |}.

(** A 200 answer whose body is not JSON, the parse error raised as
    [requests.exceptions.JSONDecodeError], the exception of
    [Response.json()] in requests 2.27 and later. *)
Definition not_json : Response :=
  {| status_code := 200; reason := "OK";
     url := "http://localhost:8000/csvpath/register_file";
     text := "Invalid JSON response";
     json_result :=
       inl (mk_exn requests_JSONDecodeError "Expecting value: line 1 column 1 (char 0)") |}.

(** A 400 answer, as in the repository's test. *)
Definition bad_request : Response :=
  {| status_code := 400; reason := "Bad Request";
     url := "http://localhost:8000/csvpath/register_file";
     text := dq "{'detail': 'Bad Request'}";
     json_result := inr (VDict [("detail", VStr "Bad Request")]) |}.

(** A get-file answer without the [file] field. *)
Definition no_file : Response := ok_response "{}" (VDict []).

(** A get-file answer whose [file] is padding only. *)
Definition padding_only : Response :=
  ok_response (dq "{'file': '===='}") (VDict [("file", VStr "====")]).

(** A get-file answer whose [file] is the empty string. *)
Definition empty_file : Response :=
  ok_response (dq "{'file': ''}") (VDict [("file", VStr EmptyString)]).

(** The get-file answer of the repository's test. *)
Definition encoded_content : Response :=
  ok_response (dq "{'file': 'YmFzZTY0IGVuY29kZWQgY29udGVudA=='}")
    (VDict [("file", VStr "YmFzZTY0IGVuY29kZWQgY29udGVudA==")]).

Definition pull_data_task : FlightPathServerPullDataOperator.t :=
  FlightPathServerPullDataOperator.__init__ "test_project" "file_ref_xyz"
    "/tmp/test_output.txt" None.

(** A connection without an API key, and surroundings that hold it. *)
Definition no_key_connection : Connection :=
  {| host := Some "http://localhost:8000"; password := None |}.

Definition no_key_env : Env :=
  {| get_connection := fun _ => inr no_key_connection;
     post_outcome := fun _ => inr no_file;
     open_wb_error := fun _ => None |}.

(** The request a hook sends for an endpoint and a payload. *)
Definition request_of (self : FlightPathServerHook.t) (endpoint : string)
  (data : option (list (string * string))) : Request :=
  {| req_url := FlightPathServerHook.base_url self +:+ endpoint;
     req_headers := FlightPathServerHook.headers self;
     req_data := json_dumps data |}.

(** The world once [req] has been handed to [requests.post]. *)
Definition after_post (w : World) (req : Request) : World :=
  {| sent := sent w ++ [req]; files := files w |}.

(** How the two [except] clauses of [_call_api] treat an exception raised
    in the [try], given the local variable [response]. *)
Definition handled (response : option Response) (e : exn) : exn :=
  if isinstance e RequestException then
    mk_exn AirflowException ("FlightPath Server API call failed: " +:+ exc_str e)
  else if isinstance e JSONDecodeError then
    match response with
    | Some r =>
        mk_exn AirflowException
          ("Failed to decode JSON response from FlightPath Server: "
           +:+ exc_str e +:+ ", Response: " +:+ text r)
    | None =>
        mk_exn UnboundLocalError
          "cannot access local variable 'response' where it is not associated with a value"
    end
  else e.

(** The error raised when the response holds no file content. *)
Definition no_file_content : exn :=
  FlightPathServerPullDataOperator.new_AirflowException
    "No file content received from FlightPath Server.".

(** The world once [content] has been written to [path]. *)
Definition after_write (w : World) (path : string) (content : list byte) : World :=
  {| sent := sent w; files := <[path := content]> (files w) |}.

(** The request of the repository's [test_get_file]. *)
Definition get_file_request : Request :=
  {| req_url := "http://localhost:8000/find/get_file";
     req_headers := [("access_token", "test_api_key");
                     ("Content-Type", "application/json");
                     ("Accept", "application/json")];
     req_data := dq "{'project_name': 'test_project', 'reference': 'file_ref_xyz'}" |}.

(** A connection store that does not know the connection. *)
Definition no_connection_env : Env :=
  {| get_connection :=
       fun conn_id =>
         inl (mk_exn AirflowNotFoundException
                ("The conn_id `" +:+ conn_id +:+ "` isn't defined"));
     post_outcome := fun _ => inr no_file;
     open_wb_error := fun _ => None |}.

(** A server that cannot be reached. *)
Definition connection_refused : exn :=
  mk_exn ConnectionError "HTTPConnectionPool(host='localhost', port=8000): Max retries exceeded".

Definition offline_env : Env :=
  {| get_connection := fun _ => inr test_connection;
     post_outcome := fun _ => inl connection_refused;
     open_wb_error := fun _ => None |}.

(** Surroundings in which no file can be opened for writing. *)
Definition permission_denied : exn :=
  mk_exn OSError "[Errno 13] Permission denied: '/tmp/test_output.txt'".

Definition read_only_env (r : Response) : Env :=
  {| get_connection := fun _ => inr test_connection;
     post_outcome := fun _ => inr r;
     open_wb_error := fun _ => Some permission_denied |}.

(** An answer whose JSON is a list, not an object. *)
Definition json_list : Response := ok_response "[]" (VList []).

(** A get-file answer whose [file] lacks its padding. *)
Definition unpadded_file : Response :=
  ok_response (dq "{'file': 'YQ'}") (VDict [("file", VStr "YQ")]).

Definition register_file_task : FlightPathServerRegisterFileOperator.t :=
  FlightPathServerRegisterFileOperator.__init__ "test_project" "test_file.csv"
    "/data/test_file.csv" None None.

Definition register_and_run_task : FlightPathServerRegisterAndRunOperator.t :=
  FlightPathServerRegisterAndRunOperator.__init__ "test_project" "/data/new_file.jsonl"
    "new_file.jsonl" "my_pipeline" None None None None.

(** The error of calling [.get] on a value that is no dict. *)
Definition no_get (v : value) : exn :=
  mk_exn AttributeError ("'" +:+ type_name v +:+ "' object has no attribute 'get'").

(** The two configuration errors of the hook. *)
Definition no_base_url : exn :=
  mk_exn AirflowException "FlightPath Server base URL not found in connection.".

Definition no_api_key : exn :=
  mk_exn AirflowException "FlightPath Server API key not found in connection (password field).".

(** Every byte, to check a fact on all of them. *)
Definition all_bytes : list byte := map (fun n => to_byte (N.of_nat n)) (seq 0 256).

(** A six-bit value whose character the decoder reads back. *)
Definition sextet_ok (v : N) : bool :=
  (v <? 64)%N
  && negb (N_of_ascii (b64_char v) =? 61)%N
  && (N_of_ascii (b64_char v) <? 128)%N
  && match b64_value (b64_char v) with Some v' => (v' =? v)%N | None => false end.

(** The six-bit values the encoder takes from a group of bytes; the
    [_last] ones end a group of one and of two bytes. *)
Definition sextet0 (b0 : byte) : N := N.shiftr (Byte.to_N b0) 2.
Definition sextet1 (b0 b1 : byte) : N :=
  N.lor (N.shiftl (N.land (Byte.to_N b0) 3) 4) (N.shiftr (Byte.to_N b1) 4).
Definition sextet1_last (b0 : byte) : N := N.shiftl (N.land (Byte.to_N b0) 3) 4.
Definition sextet2 (b1 b2 : byte) : N :=
  N.lor (N.shiftl (N.land (Byte.to_N b1) 15) 2) (N.shiftr (Byte.to_N b2) 6).
Definition sextet2_last (b1 : byte) : N := N.shiftl (N.land (Byte.to_N b1) 15) 2.
Definition sextet3 (b2 : byte) : N := N.land (Byte.to_N b2) 63.

(** The three bytes the decoder puts together from four six-bit values. *)
Definition decoded0 (v0 v1 : N) : byte := to_byte (N.lor (N.shiftl v0 2) (N.shiftr v1 4)).
Definition decoded1 (v1 v2 : N) : byte :=
  to_byte (N.lor (N.shiftl (N.land v1 15) 4) (N.shiftr v2 2)).
Definition decoded2 (v2 v3 : N) : byte := to_byte (N.lor (N.shiftl (N.land v2 3) 6) v3).

(** A connection field that is missing: absent or empty. *)
Definition missing (o : option string) : Prop := o = None \/ o = Some EmptyString.

(** * Properties *)

(** ** Strings *)

Lemma prefix_append (t post : string) : String.prefix t (t +:+ post) = true.
Proof.
  induction t as [|a t IH]; simpl.
  - destruct post; reflexivity.
  - destruct (ascii_dec a a) as [_|Hne]; [exact IH | contradiction].
Qed.

Lemma contains_prefix (t s : string) : String.prefix t s = true -> contains t s = true.
Proof. destruct s; simpl; intros ->; reflexivity. Qed.

Lemma includes_contains (s t : string) : includes s t -> contains t s = true.
Proof.
  intros (pre & post & ->).
  induction pre as [|a pre IH].
  - change (EmptyString +:+ t +:+ post) with (t +:+ post).
    apply contains_prefix, prefix_append.
  - change (String a pre +:+ t +:+ post) with (String a (pre +:+ t +:+ post)).
    simpl contains. rewrite IH. apply orb_true_r.
Qed.

Lemma includes_suffix (pre t : string) : includes (pre +:+ t) t.
Proof.
  exists pre, EmptyString.
  f_equal. induction t as [|a t IH]; [reflexivity|].
  change (String a t +:+ EmptyString) with (String a (t +:+ EmptyString)).
  now rewrite <- IH.
Qed.

Lemma includes_append_l (p s t : string) : includes s t -> includes (p +:+ s) t.
Proof.
  intros (pre & post & ->).
  induction p as [|a p (pre' & post' & IH)].
  - exists pre, post. reflexivity.
  - exists (String a pre'), post'.
    change (String a p +:+ pre +:+ t +:+ post) with (String a (p +:+ pre +:+ t +:+ post)).
    rewrite IH. reflexivity.
Qed.

Lemma if_truthy_missing (o : option string) : if_truthy o = None <-> missing o.
Proof.
  unfold missing. destruct o as [[|a s]|]; simpl; split; intros H; try reflexivity;
    try discriminate; auto.
  destruct H as [H|H]; discriminate.
Qed.

Lemma if_truthy_Some (o : option string) (s : string) : if_truthy o = Some s -> o = Some s.
Proof.
  destruct o as [x|]; simpl; [|discriminate].
  destruct (negb (String.eqb x EmptyString)); congruence.
Qed.

(** ** The call primitive *)

Section CallApi.
Variable env : Env.

Import FlightPathServerHook.

(** The hook module imports [AirflowException]: the name resolves. *)
Lemma hook_new_AirflowException (msg : string) :
  new_AirflowException msg = mk_exn AirflowException msg.
Proof. reflexivity. Qed.

(** A POST hands one request to [requests.post]; the result depends on
    the outcome, the status and the parse of the body, in this order. *)
Lemma call_api_POST (self : t) (endpoint : string)
  (data : option (list (string * string))) (w : World) :
  _call_api env self endpoint "POST" data w =
  (match post_outcome env (request_of self endpoint data) with
   | inl e => Raise (handled None e)
   | inr r =>
       if String.eqb (requests.http_error_msg r) EmptyString then
         match json_result r with
         | inr v => Return v
         | inl e => Raise (handled (Some r) e)
         end
       else Raise (handled (Some r) (mk_exn HTTPError (requests.http_error_msg r)))
   end,
   after_post w (request_of self endpoint data)).
Proof.
  unfold _call_api, _call_api_try, requests.post, request_of, after_post, handled.
  change (String.eqb "POST" "POST") with true. cbv iota.
  destruct (post_outcome env _) as [e|r]; cbn [lift raise ret bind].
  - destruct (isinstance e RequestException); [reflexivity|].
    destruct (isinstance e JSONDecodeError); reflexivity.
  - unfold requests.raise_for_status, requests.json.
    destruct (String.eqb (requests.http_error_msg r) EmptyString); cbn [lift raise ret bind].
    + destruct (json_result r) as [e|v]; cbn [lift raise ret bind]; [|reflexivity].
      destruct (isinstance e RequestException); [reflexivity|].
      destruct (isinstance e JSONDecodeError); reflexivity.
    + reflexivity.
Qed.

Lemma append_nonempty (a : string) (c : ascii) (b rest : string) :
  String.eqb (a +:+ String c b +:+ rest) EmptyString = false.
Proof. destruct a; reflexivity. Qed.

(** The status check passes exactly outside 400..599. *)
Lemma http_error_msg_empty (r : Response) :
  String.eqb (requests.http_error_msg r) EmptyString = true <->
  ~ (400 <= status_code r < 600).
Proof.
  unfold requests.http_error_msg.
  destruct (Z.leb_spec 400 (status_code r)); destruct (Z.ltb_spec (status_code r) 500);
    destruct (Z.leb_spec 500 (status_code r)); destruct (Z.ltb_spec (status_code r) 600);
    cbn [andb]; rewrite ?append_nonempty;
    split; unfold not; intros; try reflexivity; try discriminate; exfalso; lia.
Qed.

(** C10: with a method other than POST, [_call_api] raises the
    AirflowException "Unsupported HTTP method: <method>" and hands nothing
    to [requests.post]: the world, and with it the list of requests sent,
    is as before. *)
Theorem call_api_unsupported_method (self : t) (endpoint method : string)
  (data : option (list (string * string))) (w : World) :
  method <> "POST" ->
  _call_api env self endpoint method data w =
  (Raise (mk_exn AirflowException ("Unsupported HTTP method: " +:+ method)), w).
Proof.
  intros Hm. apply String.eqb_neq in Hm.
  unfold _call_api, _call_api_try. rewrite Hm. reflexivity.
Qed.

(** The second [except] clause, as the repository's test reaches it: when
    the response passes the status check (its status is outside 400..599)
    and [response.json()] raises a [json.JSONDecodeError] that is no
    [RequestException] (the exception the test's mock raises), [_call_api]
    raises an AirflowException whose message includes the raw response
    text. *)
Theorem call_api_unparsable_body (self : t) (endpoint : string)
  (data : option (list (string * string))) (w : World) (r : Response) (e : exn) :
  post_outcome env (request_of self endpoint data) = inr r ->
  ~ (400 <= status_code r < 600) ->
  json_result r = inl e ->
  isinstance e JSONDecodeError = true ->
  isinstance e RequestException = false ->
  exists msg : string,
    _call_api env self endpoint "POST" data w =
    (Raise (mk_exn AirflowException msg), after_post w (request_of self endpoint data))
    /\ includes msg (text r).
Proof.
  intros Hpost Hstatus Hjson Hjde Hreq.
  apply http_error_msg_empty in Hstatus.
  rewrite call_api_POST, Hpost, Hstatus, Hjson.
  unfold handled. rewrite Hreq, Hjde.
  eexists. split; [reflexivity|].
  do 2 apply includes_append_l. apply includes_suffix.
Qed.

(** The order of the [except] clauses: a parse failure raised as
    [requests.exceptions.JSONDecodeError], which is a [RequestException]
    too, is taken by the first clause, and the response text is not added. *)
Lemma call_api_parse_failure_first_clause (self : t) (endpoint : string)
  (data : option (list (string * string))) (w : World) (r : Response) (e : exn) :
  post_outcome env (request_of self endpoint data) = inr r ->
  ~ (400 <= status_code r < 600) ->
  json_result r = inl e ->
  isinstance e RequestException = true ->
  _call_api env self endpoint "POST" data w =
  (Raise (mk_exn AirflowException ("FlightPath Server API call failed: " +:+ exc_str e)),
   after_post w (request_of self endpoint data)).
Proof.
  intros Hpost Hstatus Hjson Hreq.
  apply http_error_msg_empty in Hstatus.
  rewrite call_api_POST, Hpost, Hstatus, Hjson.
  unfold handled. rewrite Hreq. reflexivity.
Qed.

(** C6, amended: for a response with an error status, 400..599 (4xx or
    5xx), [raise_for_status] raises an HTTPError and [_call_api] raises an
    AirflowException whose message includes that error's text; no JSON
    value is returned. *)
Theorem call_api_error_status (self : t) (endpoint : string)
  (data : option (list (string * string))) (w : World) (r : Response) :
  post_outcome env (request_of self endpoint data) = inr r ->
  400 <= status_code r < 600 ->
  let failure := mk_exn HTTPError (requests.http_error_msg r) in
  requests.raise_for_status r w = (Raise failure, w)
  /\ exists msg : string,
      _call_api env self endpoint "POST" data w =
      (Raise (mk_exn AirflowException msg), after_post w (request_of self endpoint data))
      /\ includes msg (exc_str failure).
Proof.
  intros Hpost Hstatus failure.
  assert (Hmsg : String.eqb (requests.http_error_msg r) EmptyString = false).
  { destruct (String.eqb (requests.http_error_msg r) EmptyString) eqn:E; [|reflexivity].
    apply http_error_msg_empty in E. contradiction. }
  split.
  - unfold requests.raise_for_status. rewrite Hmsg. reflexivity.
  - rewrite call_api_POST, Hpost, Hmsg.
    eexists. split; [reflexivity|]. apply includes_suffix.
Qed.

(** What a successful construction guarantees. *)
Lemma init_Return (cid : option string) (w w' : World) (self : t) :
  __init__ env cid w = (Return self, w') ->
  w' = w
  /\ headers self = [("access_token", api_key self);
                     ("Content-Type", "application/json");
                     ("Accept", "application/json")]
  /\ exists c : Connection,
      get_connection env (with_default default_conn_name cid) = inr c
      /\ host c = Some (base_url self) /\ password c = Some (api_key self).
Proof.
  unfold __init__, bind.
  destruct (get_connection env _) as [e|c] eqn:Hc; cbn [lift raise ret]; [discriminate|].
  destruct (if_truthy (host c)) as [u|] eqn:Hu; [|discriminate].
  destruct (if_truthy (password c)) as [k|] eqn:Hk; [|discriminate].
  intros H. injection H as <- <-. cbn.
  repeat split. exists c. auto using if_truthy_Some.
Qed.

(** C7: for a connection whose base URL or API key is missing (absent or
    empty), constructing the hook raises an AirflowException and yields no
    hook; with both present, construction succeeds and the hook holds
    them. *)
Theorem init_requires_url_and_key (cid : option string) (c : Connection) (w : World) :
  get_connection env (with_default default_conn_name cid) = inr c ->
  (missing (host c) \/ missing (password c) ->
   exists msg : string, __init__ env cid w = (Raise (mk_exn AirflowException msg), w))
  /\ (~ missing (host c) -> ~ missing (password c) ->
      exists self : t,
        __init__ env cid w = (Return self, w)
        /\ host c = Some (base_url self) /\ password c = Some (api_key self)).
Proof.
  intros Hc. unfold __init__, bind. rewrite Hc. cbn [lift raise ret].
  split.
  - intros [Hh|Hp].
    + apply if_truthy_missing in Hh. rewrite Hh. eexists. reflexivity.
    + apply if_truthy_missing in Hp. rewrite Hp.
      destruct (if_truthy (host c)); eexists; reflexivity.
  - intros Hh Hp.
    destruct (if_truthy (host c)) as [u|] eqn:Hu;
      [|exfalso; apply Hh, if_truthy_missing, Hu].
    destruct (if_truthy (password c)) as [k|] eqn:Hk;
      [|exfalso; apply Hp, if_truthy_missing, Hk].
    eexists. split; [reflexivity|]. cbn. auto using if_truthy_Some.
Qed.

End CallApi.

(** ** The convenience methods *)

Section ConvenienceMethods.
Variable env : Env.

Import FlightPathServerHook.

(** C5: on a hook constructed from a connection profile, each of the four
    convenience methods hands exactly one request to [requests.post]: to
    the base URL followed by the method's fixed path, with the three
    headers [access_token] (the profile's API key), [Content-Type] and
    [Accept], and with [json.dumps] of the payload the method builds as
    body. *)
Theorem convenience_methods_post_once (cid : option string) (w0 w1 : World) (self : t) :
  __init__ env cid w0 = (Return self, w1) ->
  let request (path : string) (payload : list (string * string)) :=
    {| req_url := base_url self +:+ path;
       req_headers := [("access_token", api_key self);
                       ("Content-Type", "application/json");
                       ("Accept", "application/json")];
       req_data := json_dumps (Some payload) |} in
  (exists c : Connection,
     get_connection env (with_default default_conn_name cid) = inr c
     /\ host c = Some (base_url self) /\ password c = Some (api_key self))
  /\ (forall p n l tpl w,
        sent (snd (register_file env self p n l tpl w)) =
        sent w ++ [request "/csvpath/register_file" (register_file_data p n l tpl)])
  /\ (forall p l f g m ft rt w,
        sent (snd (register_and_run env self p l f g m ft rt w)) =
        sent w ++ [request "/csvpath/register_and_run"
                     (register_and_run_data p l f g m ft rt)])
  /\ (forall p r w,
        sent (snd (find_files env self p r w)) =
        sent w ++ [request "/find/find_files" (reference_data p r)])
  /\ (forall p r w,
        sent (snd (get_file env self p r w)) =
        sent w ++ [request "/find/get_file" (reference_data p r)]).
Proof.
  intros Hinit request.
  destruct (init_Return env cid w0 w1 self Hinit) as (_ & Hh & Hc).
  split; [exact Hc|].
  unfold register_file, register_and_run, find_files, get_file.
  repeat split; intros; rewrite call_api_POST; cbn [snd after_post sent];
    unfold request_of, request; rewrite Hh; reflexivity.
Qed.

(** The payloads without their optional fields. *)
Lemma register_file_data_None (p n l : string) :
  register_file_data p n l None =
  [("project_name", p); ("name", n); ("file_location", l)].
Proof. reflexivity. Qed.

Lemma register_and_run_data_None (p l f g : string) (m : option string) :
  register_and_run_data p l f g m None None =
  [("project_name", p); ("file_location", l); ("file_name", f);
   ("csvpaths_group_name", g); ("method", with_default "collect_paths" m)].
Proof. reflexivity. Qed.

(** C4: a [template] left out of [register_file], and a [file_template]
    or a [run_template] left out of [register_and_run], is no key of the
    payload, and the payload, serialized by [json.dumps], is the body of
    the request; with every optional field left out the payloads are the
    three, respectively five, required fields. *)
Theorem omitted_optional_fields_absent :
  (forall p n l, ~ In "template" (keys (register_file_data p n l None)))
  /\ (forall p l f g m rt,
        ~ In "file_template" (keys (register_and_run_data p l f g m None rt)))
  /\ (forall p l f g m ft,
        ~ In "run_template" (keys (register_and_run_data p l f g m ft None)))
  /\ (forall self p n l w,
        sent (snd (register_file env self p n l None w)) =
        sent w ++ [request_of self "/csvpath/register_file"
                     (Some [("project_name", p); ("name", n); ("file_location", l)])])
  /\ (forall self p l f g m w,
        sent (snd (register_and_run env self p l f g m None None w)) =
        sent w ++ [request_of self "/csvpath/register_and_run"
                     (Some [("project_name", p); ("file_location", l); ("file_name", f);
                            ("csvpaths_group_name", g);
                            ("method", with_default "collect_paths" m)])]).
Proof.
  repeat split.
  - intros p n l. cbn. intuition discriminate.
  - intros p l f g m rt. unfold register_and_run_data. cbn [if_truthy].
    destruct (if_truthy rt); cbn; intuition discriminate.
  - intros p l f g m ft. unfold register_and_run_data. cbn [if_truthy].
    destruct (if_truthy ft); cbn; intuition discriminate.
  - intros. unfold register_file. rewrite call_api_POST. reflexivity.
  - intros. unfold register_and_run. rewrite call_api_POST. reflexivity.
Qed.

End ConvenienceMethods.

(** ** The task wrappers *)

Section TaskWrappers.
Variable env : Env.

(** [v.get(key)] leaves the world alone. *)
Lemma value_get_world (v : value) (key : string) (w : World) :
  snd (value_get v key w) = w.
Proof. destruct v; reflexivity. Qed.

(** C8: without a [method] argument the payload of [register_and_run] has
    the key "method" with the value "collect_paths"; whatever the
    arguments, the key is in the payload; and the request that the
    register-and-run operator sends, when it is constructed without a
    [method], carries the payload of that default. *)
Theorem register_and_run_default_method
  (p l f g : string) (ft rt cid : option string) (w w1 : World)
  (hook : FlightPathServerHook.t) :
  FlightPathServerHook.__init__ env
    (Some (with_default FlightPathServerHook.default_conn_name cid)) w = (Return hook, w1) ->
  assoc_get (FlightPathServerHook.register_and_run_data p l f g None ft rt) "method"
  = Some "collect_paths"
  /\ (forall m : option string,
        assoc_get (FlightPathServerHook.register_and_run_data p l f g m ft rt) "method"
        = Some (with_default "collect_paths" m)
        /\ In "method" (keys (FlightPathServerHook.register_and_run_data p l f g m ft rt)))
  /\ FlightPathServerRegisterAndRunOperator.method
       (FlightPathServerRegisterAndRunOperator.__init__ p l f g None ft rt cid)
     = "collect_paths"
  /\ sent (snd (FlightPathServerRegisterAndRunOperator.execute env
                  (FlightPathServerRegisterAndRunOperator.__init__ p l f g None ft rt cid) w))
     = sent w ++ [request_of hook "/csvpath/register_and_run"
                    (Some (FlightPathServerHook.register_and_run_data p l f g None ft rt))].
Proof.
  intros Hinit.
  assert (Hm : forall m : option string,
             assoc_get (FlightPathServerHook.register_and_run_data p l f g m ft rt) "method"
             = Some (with_default "collect_paths" m)
             /\ In "method" (keys (FlightPathServerHook.register_and_run_data p l f g m ft rt))).
  { intros m. unfold FlightPathServerHook.register_and_run_data.
    destruct (if_truthy ft); destruct (if_truthy rt); cbn; intuition. }
  split; [apply (Hm None)|]. split; [exact Hm|]. split; [reflexivity|].
  destruct (init_Return env _ _ _ _ Hinit) as (-> & _).
  unfold FlightPathServerRegisterAndRunOperator.execute, bind.
  cbn [FlightPathServerRegisterAndRunOperator.flightpath_server_conn_id
       FlightPathServerRegisterAndRunOperator.__init__].
  rewrite Hinit.
  unfold FlightPathServerHook.register_and_run. rewrite call_api_POST.
  match goal with |- context [match ?o with inl _ => _ | inr _ => _ end] =>
    destruct o as [e|r] end; [reflexivity|].
  destruct (String.eqb _ EmptyString); [|reflexivity].
  destruct (json_result r) as [e|v]; [reflexivity|].
  destruct v; reflexivity.
Qed.

Import FlightPathServerPullDataOperator.

(** Without a truthy [file] field nothing is decoded or written. *)
Lemma save_no_content (self : t) (d : list (string * value)) (w : World) :
  (forall v, assoc_get d "file" = Some v -> truthy v = false) ->
  save env self (VDict d) w = (Raise no_file_content, w).
Proof.
  intros Hd. unfold save, bind, value_get, ret.
  destruct (assoc_get d "file") as [v|]; cbn [with_default].
  - rewrite (Hd v eq_refl). reflexivity.
  - reflexivity.
Qed.

(** A non-empty string that decodes is written to the output path. *)
Lemma save_content (self : t) (d : list (string * value)) (s : string)
  (content : list byte) (w : World) :
  assoc_get d "file" = Some (VStr s) ->
  s <> EmptyString ->
  b64decode (VStr s) = inr content ->
  open_wb_error env (output_path self) = None ->
  save env self (VDict d) w = (Return (output_path self), after_write w (output_path self) content).
Proof.
  intros Hd Hs Hb Ho. unfold save, bind, value_get, ret. rewrite Hd. cbn [with_default truthy].
  apply String.eqb_neq in Hs. rewrite Hs. cbn [negb]. rewrite Hb. cbn [lift ret].
  unfold write_binary_file. rewrite Ho. reflexivity.
Qed.

(** Whenever something is saved, it is the decoding of a non-empty string. *)
Lemma save_Return (self : t) (d : list (string * value)) (p : string) (w w' : World) :
  save env self (VDict d) w = (Return p, w') ->
  exists (s : string) (content : list byte),
    assoc_get d "file" = Some (VStr s) /\ s <> EmptyString
    /\ b64decode (VStr s) = inr content
    /\ p = output_path self /\ w' = after_write w (output_path self) content.
Proof.
  unfold save, bind, value_get, ret.
  destruct (assoc_get d "file") as [v|] eqn:Hd; cbn [with_default]; [|discriminate].
  destruct (truthy v) eqn:Hv; cbn [negb]; [|discriminate].
  destruct (b64decode v) as [e|content] eqn:Hb; cbn [lift raise ret]; [discriminate|].
  unfold write_binary_file. destruct (open_wb_error env (output_path self)); [discriminate|].
  intros H. injection H as <- <-.
  destruct v; try discriminate Hb.
  exists s, content. repeat split; try assumption.
  intros ->. discriminate Hv.
Qed.

(** The hook's [get_file] does not touch the files. *)
Lemma get_file_files (hook : FlightPathServerHook.t) (p r : string) (w : World) :
  files (snd (FlightPathServerHook.get_file env hook p r w)) = files w.
Proof. unfold FlightPathServerHook.get_file. rewrite call_api_POST. reflexivity. Qed.

(** C3: when the get-file response holds a non-empty string in its [file]
    field and that string decodes, [execute] writes exactly the decoded
    bytes to the output path (which [open] accepts) and returns the
    output path. *)
Theorem pull_data_writes_decoded_bytes (self : t) (w w1 w2 : World)
  (hook : FlightPathServerHook.t) (d : list (string * value)) (s : string)
  (content : list byte) :
  FlightPathServerHook.__init__ env (Some (flightpath_server_conn_id self)) w
  = (Return hook, w1) ->
  FlightPathServerHook.get_file env hook (project_name self) (reference self) w1
  = (Return (VDict d), w2) ->
  assoc_get d "file" = Some (VStr s) ->
  s <> EmptyString ->
  b64decode (VStr s) = inr content ->
  open_wb_error env (output_path self) = None ->
  exists w' : World,
    execute env self w = (Return (output_path self), w')
    /\ files w' = <[output_path self := content]> (files w)
    /\ files w' !! output_path self = Some content.
Proof.
  intros Hinit Hget Hd Hs Hb Ho.
  exists (after_write w2 (output_path self) content).
  assert (Hf : files w2 = files w).
  { destruct (init_Return env _ _ _ _ Hinit) as (-> & _).
    rewrite <- (get_file_files hook (project_name self) (reference self) w), Hget.
    reflexivity. }
  split; [|split].
  - unfold execute, bind. rewrite Hinit, Hget.
    exact (save_content self d s content w2 Hd Hs Hb Ho).
  - cbn [after_write files]. now rewrite Hf.
  - cbn [after_write files]. apply lookup_insert_eq.
Qed.

(** C9, amended: when the [file] field of the get-file response is absent
    or holds a falsy value, [execute] raises the one error of its
    no-content branch and the files are as before; and whenever [execute]
    returns, the file it wrote is the decoding of a non-empty [file]
    string, so that a zero-byte file is written exactly when such a string
    decodes to no bytes. *)
Theorem pull_data_falsy_file (self : t) (w w1 w2 : World)
  (hook : FlightPathServerHook.t) (d : list (string * value)) :
  FlightPathServerHook.__init__ env (Some (flightpath_server_conn_id self)) w
  = (Return hook, w1) ->
  FlightPathServerHook.get_file env hook (project_name self) (reference self) w1
  = (Return (VDict d), w2) ->
  ((forall v, assoc_get d "file" = Some v -> truthy v = false) ->
   execute env self w = (Raise no_file_content, w2) /\ files w2 = files w)
  /\ (forall (p : string) (w' : World),
        execute env self w = (Return p, w') ->
        exists (s : string) (content : list byte),
          assoc_get d "file" = Some (VStr s) /\ s <> EmptyString
          /\ b64decode (VStr s) = inr content
          /\ files w' = <[output_path self := content]> (files w)).
Proof.
  intros Hinit Hget.
  assert (Hf : files w2 = files w).
  { destruct (init_Return env _ _ _ _ Hinit) as (-> & _).
    rewrite <- (get_file_files hook (project_name self) (reference self) w), Hget.
    reflexivity. }
  split.
  - intros Hd. split; [|exact Hf].
    unfold execute, bind. rewrite Hinit, Hget. now apply save_no_content.
  - intros p w' H. unfold execute, bind in H. rewrite Hinit, Hget in H.
    apply save_Return in H as (s & content & Hd & Hs & Hb & _ & ->).
    exists s, content. repeat split; try assumption.
    cbn [after_write files]. now rewrite Hf.
Qed.

End TaskWrappers.

(** ** Concrete runs *)

(** C1 at a 200 response whose body is no JSON: the exception of
    [response.json()] is a [json.JSONDecodeError] and a [RequestException]
    too, the first [except] clause takes it, and the AirflowException
    that comes out does not include the raw response text, which only the
    second clause adds. *)
Theorem call_api_unparsable_body_text_missing :
  (exists e : exn,
     json_result not_json = inl e
     /\ isinstance e JSONDecodeError = true
     /\ isinstance e RequestException = true)
  /\ ~ (400 <= status_code not_json < 600)
  /\ FlightPathServerHook._call_api (test_env not_json) test_hook
       "/csvpath/register_file" "POST"
       (Some (FlightPathServerHook.register_file_data "test_project" "test_file.csv"
                "/data/test_file.csv" None)) world0
     = (Raise (mk_exn AirflowException
                 "FlightPath Server API call failed: Expecting value: line 1 column 1 (char 0)"),
        after_post world0
          (request_of test_hook "/csvpath/register_file"
             (Some (FlightPathServerHook.register_file_data "test_project" "test_file.csv"
                      "/data/test_file.csv" None))))
  /\ ~ includes
        "FlightPath Server API call failed: Expecting value: line 1 column 1 (char 0)"
        (text not_json).
Proof.
  split; [eexists; repeat split; reflexivity|].
  split; [cbn; lia|].
  split; [vm_compute; reflexivity|].
  intros Hin. apply includes_contains in Hin. vm_compute in Hin. discriminate.
Qed.

(** The status check comes first: the body of [bad_gateway] is no JSON,
    and the AirflowException reports the status failure, without the
    response text. *)
Lemma call_api_unparsable_body_error_status :
  (exists e : exn,
     json_result bad_gateway = inl e /\ isinstance e JSONDecodeError = true)
  /\ FlightPathServerHook._call_api (test_env bad_gateway) test_hook "/find/get_file" "POST"
       (Some (FlightPathServerHook.reference_data "test_project" "file_ref_xyz")) world0
     = (Raise (mk_exn AirflowException
                 "FlightPath Server API call failed: 502 Server Error: Bad Gateway for url: http://localhost:8000/find/get_file"),
        after_post world0 get_file_request)
  /\ ~ (exists msg : string,
          fst (FlightPathServerHook._call_api (test_env bad_gateway) test_hook
                 "/find/get_file" "POST"
                 (Some (FlightPathServerHook.reference_data "test_project" "file_ref_xyz"))
                 world0)
          = Raise (mk_exn AirflowException msg)
          /\ includes msg (text bad_gateway)).
Proof.
  split; [eexists; split; reflexivity|].
  split; [vm_compute; reflexivity|].
  intros (msg & Hr & Hin).
  vm_compute in Hr. injection Hr as <-.
  apply includes_contains in Hin. vm_compute in Hin. discriminate.
Qed.

(** The decode error of the repository's test: a 200 answer that is no JSON. *)
Lemma call_api_unparsable_body_witness :
  exists msg : string,
    FlightPathServerHook._call_api (test_env invalid_json) test_hook
      "/csvpath/register_file" "POST"
      (Some (FlightPathServerHook.register_file_data "test_project" "test_file.csv"
               "/data/test_file.csv" None)) world0
    = (Raise (mk_exn AirflowException msg),
       after_post world0
         (request_of test_hook "/csvpath/register_file"
            (Some (FlightPathServerHook.register_file_data "test_project" "test_file.csv"
                     "/data/test_file.csv" None))))
    /\ includes msg (text invalid_json).
Proof.
  apply (call_api_unparsable_body (test_env invalid_json) test_hook "/csvpath/register_file"
           _ world0 invalid_json
           (mk_exn JSONDecodeError "Invalid JSON: line 1 column 1 (char 0)")).
  - reflexivity.
  - cbn. lia.
  - reflexivity.
  - reflexivity.
  - reflexivity.
Defined.

(** C6, as stated, fails on a status that is neither 2xx nor an error
    status: [multiple_choices] has status 300, and its JSON is returned. *)
Lemma call_api_status_300_returns :
  ~ (200 <= status_code multiple_choices < 300)
  /\ FlightPathServerHook._call_api (test_env multiple_choices) test_hook
       "/find/find_files" "POST"
       (Some (FlightPathServerHook.reference_data "test_project" "file_ref_xyz")) world0
     = (Return (VDict [("paths", VList [])]),
        after_post world0
          (request_of test_hook "/find/find_files"
             (Some (FlightPathServerHook.reference_data "test_project" "file_ref_xyz")))).
Proof.
  split; [cbn; lia|]. vm_compute. reflexivity.
Qed.

(** The failure of the repository's test: a 400 answer. *)
Lemma call_api_error_status_witness :
  400 <= status_code bad_request < 600
  /\ exists msg : string,
      FlightPathServerHook._call_api (test_env bad_request) test_hook
        "/csvpath/register_file" "POST" None world0
      = (Raise (mk_exn AirflowException msg),
         after_post world0 (request_of test_hook "/csvpath/register_file" None))
      /\ includes msg (requests.http_error_msg bad_request).
Proof.
  split; [cbn; lia|].
  apply (call_api_error_status (test_env bad_request) test_hook "/csvpath/register_file"
           None world0 bad_request).
  - reflexivity.
  - cbn. lia.
Defined.

(** A GET is refused before anything is sent. *)
Lemma call_api_unsupported_method_witness :
  "GET" <> "POST"
  /\ FlightPathServerHook._call_api (test_env no_file) test_hook "/find/get_file" "GET" None
       world0
     = (Raise (mk_exn AirflowException "Unsupported HTTP method: GET"), world0).
Proof.
  split; [discriminate|].
  apply (call_api_unsupported_method (test_env no_file) test_hook "/find/get_file" "GET"
           None world0).
  discriminate.
Defined.

(** A connection without a key is refused; the connection of the tests is
    accepted. *)
Lemma init_requires_url_and_key_witness :
  (exists msg : string,
     FlightPathServerHook.__init__ no_key_env None world0
     = (Raise (mk_exn AirflowException msg), world0))
  /\ (exists self : FlightPathServerHook.t,
        FlightPathServerHook.__init__ (test_env no_file) None world0 = (Return self, world0)
        /\ host test_connection = Some (FlightPathServerHook.base_url self)
        /\ password test_connection = Some (FlightPathServerHook.api_key self)).
Proof.
  split.
  - apply (proj1 (init_requires_url_and_key no_key_env None no_key_connection world0
                    eq_refl)).
    right. left. reflexivity.
  - apply (proj2 (init_requires_url_and_key (test_env no_file) None test_connection world0
                    eq_refl));
      intros [H|H]; discriminate H.
Defined.

(** The one request of the repository's [test_get_file]. *)
Lemma convenience_methods_post_once_witness :
  FlightPathServerHook.__init__ (test_env no_file) None world0 = (Return test_hook, world0)
  /\ sent (snd (FlightPathServerHook.get_file (test_env no_file) test_hook
                  "test_project" "file_ref_xyz" world0))
     = [get_file_request].
Proof.
  split; [reflexivity|].
  destruct (convenience_methods_post_once (test_env no_file) None world0 world0 test_hook
              eq_refl) as (_ & _ & _ & _ & H).
  exact (H "test_project" "file_ref_xyz" world0).
Defined.

(** The one request of the register-and-run operator of the repository's
    test, built without a [method]. *)
Lemma register_and_run_default_method_witness :
  sent (snd (FlightPathServerRegisterAndRunOperator.execute (test_env no_file)
               (FlightPathServerRegisterAndRunOperator.__init__ "test_project"
                  "/data/new_file.jsonl" "new_file.jsonl" "my_pipeline" None None None None)
               world0))
  = [ {| req_url := "http://localhost:8000/csvpath/register_and_run";
         req_headers := [("access_token", "test_api_key");
                         ("Content-Type", "application/json");
                         ("Accept", "application/json")];
         req_data :=
           dq "{'project_name': 'test_project', 'file_location': '/data/new_file.jsonl', 'file_name': 'new_file.jsonl', 'csvpaths_group_name': 'my_pipeline', 'method': 'collect_paths'}" |} ].
Proof.
  exact (proj2 (proj2 (proj2
           (register_and_run_default_method (test_env no_file) "test_project"
              "/data/new_file.jsonl" "new_file.jsonl" "my_pipeline" None None None
              world0 world0 test_hook eq_refl)))).
Defined.

(** C2 at a response without the [file] field: the operators module
    never binds [AirflowException], and the [raise] of the no-content
    branch ends in a NameError; the request was sent and no file is
    written. *)
Theorem pull_data_missing_file_NameError :
  no_file_content = mk_exn NameError "name 'AirflowException' is not defined"
  /\ FlightPathServerPullDataOperator.execute (test_env no_file) pull_data_task world0
     = (Raise (mk_exn NameError "name 'AirflowException' is not defined"),
        after_post world0 get_file_request)
  /\ files (after_post world0 get_file_request) = files world0.
Proof. repeat split; vm_compute; reflexivity. Qed.

(** The pull of the repository's test: the decoded content lands in the
    output file. *)
Lemma pull_data_writes_decoded_bytes_witness :
  exists w' : World,
    FlightPathServerPullDataOperator.execute (test_env encoded_content) pull_data_task world0
    = (Return "/tmp/test_output.txt", w')
    /\ files w' = <["/tmp/test_output.txt" := bytes_of "base64 encoded content"]> (files world0)
    /\ files w' !! "/tmp/test_output.txt" = Some (bytes_of "base64 encoded content").
Proof.
  apply (pull_data_writes_decoded_bytes (test_env encoded_content) pull_data_task
           world0 world0 (after_post world0 get_file_request) test_hook
           [("file", VStr "YmFzZTY0IGVuY29kZWQgY29udGVudA==")]
           "YmFzZTY0IGVuY29kZWQgY29udGVudA==" (bytes_of "base64 encoded content")).
  - reflexivity.
  - vm_compute. reflexivity.
  - reflexivity.
  - discriminate.
  - vm_compute. reflexivity.
  - reflexivity.
Defined.

(** C9, as stated, fails on a [file] that is padding only: the string is
    not empty, it decodes to no bytes, and a zero-byte file is written. *)
Lemma pull_data_zero_byte_file :
  truthy (VStr "====") = true
  /\ b64decode (VStr "====") = inr []
  /\ FlightPathServerPullDataOperator.execute (test_env padding_only) pull_data_task world0
     = (Return "/tmp/test_output.txt",
        after_write (after_post world0 get_file_request) "/tmp/test_output.txt" [])
  /\ files (after_write (after_post world0 get_file_request) "/tmp/test_output.txt" [])
       !! "/tmp/test_output.txt" = Some [].
Proof. repeat split; vm_compute; reflexivity. Qed.

(** An empty [file] string takes the no-content branch. *)
Lemma pull_data_falsy_file_witness :
  truthy (VStr EmptyString) = false
  /\ FlightPathServerPullDataOperator.execute (test_env empty_file) pull_data_task world0
     = (Raise no_file_content, after_post world0 get_file_request)
  /\ files (after_post world0 get_file_request) = files world0.
Proof.
  split; [reflexivity|].
  apply (proj1 (pull_data_falsy_file (test_env empty_file) pull_data_task
                  world0 world0 (after_post world0 get_file_request) test_hook
                  [("file", VStr EmptyString)] eq_refl eq_refl)).
  intros v H. injection H as <-. reflexivity.
Defined.

(** ** The repository's tests *)

Example test_register_file :
  (do hook <- FlightPathServerHook.__init__
                (test_env (ok_response (dq "{'reference': 'test_ref_123'}")
                             (VDict [("reference", VStr "test_ref_123")]))) None;
   FlightPathServerHook.register_file
     (test_env (ok_response (dq "{'reference': 'test_ref_123'}")
                  (VDict [("reference", VStr "test_ref_123")])))
     hook "test_project" "test_file.csv" "/data/test_file.csv" None) world0
  = (Return (VDict [("reference", VStr "test_ref_123")]),
     {| sent := [ {| req_url := "http://localhost:8000/csvpath/register_file";
                     req_headers := [("access_token", "test_api_key");
                                     ("Content-Type", "application/json");
                                     ("Accept", "application/json")];
                     req_data :=
                       dq "{'project_name': 'test_project', 'name': 'test_file.csv', 'file_location': '/data/test_file.csv'}" |} ];
        files := files world0 |}).
Proof. vm_compute. reflexivity. Qed.

Example test_get_file :
  (do hook <- FlightPathServerHook.__init__ (test_env encoded_content) None;
   FlightPathServerHook.get_file (test_env encoded_content) hook
     "test_project" "file_ref_xyz") world0
  = (Return (VDict [("file", VStr "YmFzZTY0IGVuY29kZWQgY29udGVudA==")]),
     after_post world0 get_file_request).
Proof. vm_compute. reflexivity. Qed.

Example test_api_call_failure :
  exists rest : string,
    fst ((do hook <- FlightPathServerHook.__init__ (test_env bad_request) None;
          FlightPathServerHook.register_file (test_env bad_request) hook
            "test_project" "test_file.csv" "/data/test_file.csv" None) world0)
    = Raise (mk_exn AirflowException ("FlightPath Server API call failed" +:+ rest)).
Proof. eexists. vm_compute. reflexivity. Qed.

Example test_api_call_json_decode_error :
  exists rest : string,
    fst ((do hook <- FlightPathServerHook.__init__ (test_env invalid_json) None;
          FlightPathServerHook.register_file (test_env invalid_json) hook
            "test_project" "test_file.csv" "/data/test_file.csv" None) world0)
    = Raise (mk_exn AirflowException
               ("Failed to decode JSON response from FlightPath Server" +:+ rest)).
Proof. eexists. vm_compute. reflexivity. Qed.

Example test_b64decode :
  map (fun s => b64decode (VStr s)) ["YQ=="; "YWJj"; "YQ==YQ=="; "===="; "!"; "YQ"; "Y"]
  = [inr (bytes_of "a"); inr (bytes_of "abc"); inr (bytes_of "a"); inr []; inr [];
     inl Incorrect_padding; inl (Invalid_length 0)].
Proof. vm_compute. reflexivity. Qed.

Example test_json_dumps_escapes :
  json_dumps (Some [("a", String (ascii_of_N 10) (String (ascii_of_N 233) "'b\"))])
  = dq "{'a': '\n\u00e9" +:+ "'b\\" +:+ dq "'}".
Proof. vm_compute. reflexivity. Qed.

(** * Further properties *)

(** ** The call primitive, beyond its error messages *)

Section CallApiOutcomes.
Variable env : Env.

Import FlightPathServerHook.

(** No handler gives an exception of the two classes it catches. *)
Lemma handled_not_caught (response : option Response) (e : exn) :
  isinstance (handled response e) RequestException = false
  /\ isinstance (handled response e) JSONDecodeError = false.
Proof.
  unfold handled.
  destruct (isinstance e RequestException) eqn:Hr; [split; reflexivity|].
  destruct (isinstance e JSONDecodeError) eqn:Hj; [|split; assumption].
  destruct response; split; reflexivity.
Qed.

(** X1: a response whose status is no error status and whose body parses
    is answered with the parsed JSON value, unchanged, after one request. *)
Theorem call_api_returns_parsed_body (self : t) (endpoint : string)
  (data : option (list (string * string))) (w : World) (r : Response) (v : value) :
  post_outcome env (request_of self endpoint data) = inr r ->
  ~ (400 <= status_code r < 600) ->
  json_result r = inr v ->
  _call_api env self endpoint "POST" data w =
  (Return v, after_post w (request_of self endpoint data)).
Proof.
  intros Hpost Hstatus Hjson.
  apply http_error_msg_empty in Hstatus.
  now rewrite call_api_POST, Hpost, Hstatus, Hjson.
Qed.

(** X2: when [requests.post] itself raises, a [RequestException] (no
    connection, a timeout) comes out as the AirflowException "FlightPath
    Server API call failed: <its text>", and an exception that is neither
    a [RequestException] nor a [json.JSONDecodeError] comes out as it is. *)
Theorem call_api_post_failure (self : t) (endpoint : string)
  (data : option (list (string * string))) (w : World) (e : exn) :
  post_outcome env (request_of self endpoint data) = inl e ->
  (isinstance e RequestException = true ->
   _call_api env self endpoint "POST" data w =
   (Raise (mk_exn AirflowException ("FlightPath Server API call failed: " +:+ exc_str e)),
    after_post w (request_of self endpoint data)))
  /\ (isinstance e RequestException = false -> isinstance e JSONDecodeError = false ->
      _call_api env self endpoint "POST" data w =
      (Raise e, after_post w (request_of self endpoint data))).
Proof.
  intros Hpost. rewrite call_api_POST, Hpost. unfold handled.
  split; [intros -> | intros -> ->]; reflexivity.
Qed.

(** X3: whatever the method, the server and the response, an exception
    that leaves [_call_api] is neither a [RequestException] nor a
    [json.JSONDecodeError]: the caller never has to catch the errors of
    the HTTP library. *)
Theorem call_api_raises_no_library_error (self : t) (endpoint method : string)
  (data : option (list (string * string))) (w w' : World) (e : exn) :
  _call_api env self endpoint method data w = (Raise e, w') ->
  isinstance e RequestException = false /\ isinstance e JSONDecodeError = false.
Proof.
  destruct (String.eqb_spec method "POST") as [-> | Hm].
  - rewrite call_api_POST.
    destruct (post_outcome env _) as [e0|r].
    + intros H. injection H as <- _. apply handled_not_caught.
    + destruct (String.eqb _ EmptyString).
      * destruct (json_result r) as [e0|v]; [|discriminate].
        intros H. injection H as <- _. apply handled_not_caught.
      * intros H. injection H as <- _. apply handled_not_caught.
  - apply String.eqb_neq in Hm.
    unfold _call_api, _call_api_try. rewrite Hm. cbn.
    intros H. injection H as <- _. split; reflexivity.
Qed.

(** Constructing a hook leaves the world alone. *)
Lemma init_world (cid : option string) (w : World) :
  snd (__init__ env cid w) = w.
Proof.
  unfold __init__, bind.
  destruct (get_connection env _) as [e|c]; cbn [lift raise ret snd]; [reflexivity|].
  destruct (if_truthy (host c)); [|reflexivity].
  destruct (if_truthy (password c)); reflexivity.
Qed.

(** X4: which configuration error the constructor raises: without a base
    URL the one about the base URL, also when the key is missing too;
    with a base URL and without a key the one about the key; and a
    failing connection lookup comes out as it is. *)
Theorem init_error_messages (cid : option string) (w : World) :
  (forall c : Connection,
     get_connection env (with_default default_conn_name cid) = inr c ->
     (missing (host c) -> __init__ env cid w = (Raise no_base_url, w))
     /\ (~ missing (host c) -> missing (password c) ->
         __init__ env cid w = (Raise no_api_key, w)))
  /\ (forall e : exn,
        get_connection env (with_default default_conn_name cid) = inl e ->
        __init__ env cid w = (Raise e, w)).
Proof.
  split.
  - intros c Hc. unfold __init__, bind. rewrite Hc. cbn [lift raise ret].
    split.
    + intros Hh. apply if_truthy_missing in Hh. now rewrite Hh.
    + intros Hh Hp. apply if_truthy_missing in Hp.
      destruct (if_truthy (host c)) eqn:Hu; [now rewrite Hp|].
      exfalso. apply Hh, if_truthy_missing, Hu.
  - intros e He. unfold __init__, bind. now rewrite He.
Qed.

End CallApiOutcomes.

(** ** The payloads *)

Section Payloads.

Import FlightPathServerHook.

(** X5: in the payload of [register_file] and of [register_and_run] each
    required field is under its key; an optional field is under its key
    exactly when its argument is a non-empty string (an empty string is
    left out like [None]), whatever the other optional field is; and no
    key occurs twice. *)
Theorem payload_fields :
  (forall (p n l : string) (tpl : option string),
     let d := register_file_data p n l tpl in
     assoc_get d "project_name" = Some p
     /\ assoc_get d "name" = Some n
     /\ assoc_get d "file_location" = Some l
     /\ assoc_get d "template" = if_truthy tpl
     /\ List.NoDup (keys d))
  /\ (forall (p l f g : string) (m ft rt : option string),
        let d := register_and_run_data p l f g m ft rt in
        assoc_get d "project_name" = Some p
        /\ assoc_get d "file_location" = Some l
        /\ assoc_get d "file_name" = Some f
        /\ assoc_get d "csvpaths_group_name" = Some g
        /\ assoc_get d "file_template" = if_truthy ft
        /\ assoc_get d "run_template" = if_truthy rt
        /\ List.NoDup (keys d)).
Proof.
  split.
  - intros p n l tpl d. subst d. unfold register_file_data.
    destruct (if_truthy tpl); cbn; repeat split;
      repeat (constructor; [cbn; intuition discriminate|]); constructor.
  - intros p l f g m ft rt d. subst d. unfold register_and_run_data.
    destruct (if_truthy ft); destruct (if_truthy rt); cbn; repeat split;
      repeat (constructor; [cbn; intuition discriminate|]); constructor.
Qed.


End Payloads.

(** ** The task wrappers, beyond the claims *)

Section TaskWrapperOutcomes.
Variable env : Env.

(** What [save] can do: raise and leave the world, or write one file. *)
Lemma save_cases (self : FlightPathServerPullDataOperator.t) (response : value)
  (w : World) :
  (exists e : exn, FlightPathServerPullDataOperator.save env self response w = (Raise e, w))
  \/ (exists content : list byte,
        FlightPathServerPullDataOperator.save env self response w =
        (Return (FlightPathServerPullDataOperator.output_path self),
         after_write w (FlightPathServerPullDataOperator.output_path self) content)).
Proof.
  unfold FlightPathServerPullDataOperator.save, bind, value_get.
  destruct response; try (left; eexists; reflexivity).
  cbn [ret]. destruct (truthy _); cbn [negb]; [|left; eexists; reflexivity].
  destruct (b64decode _) as [e|content]; cbn [lift raise ret];
    [left; eexists; reflexivity|].
  unfold write_binary_file.
  destruct (open_wb_error env _); [left | right]; eexists; reflexivity.
Qed.

(** The world after a call of the hook, whatever its result. *)
Lemma call_api_POST_world (hook : FlightPathServerHook.t) (endpoint : string)
  (data : option (list (string * string))) (w : World) :
  snd (FlightPathServerHook._call_api env hook endpoint "POST" data w)
  = after_post w (request_of hook endpoint data).
Proof. now rewrite call_api_POST. Qed.

(** X7: once its hook is constructed, each of the three operators hands
    exactly one request to [requests.post], whatever happens afterwards:
    the request of its hook method, built from the operator's own fields. *)
Theorem operators_send_one_request :
  (forall (self : FlightPathServerRegisterFileOperator.t) (hook : FlightPathServerHook.t)
          (w w1 : World),
     FlightPathServerHook.__init__ env
       (Some (FlightPathServerRegisterFileOperator.flightpath_server_conn_id self)) w
     = (Return hook, w1) ->
     sent (snd (FlightPathServerRegisterFileOperator.execute env self w))
     = sent w ++ [request_of hook "/csvpath/register_file"
                    (Some (FlightPathServerHook.register_file_data
                             (FlightPathServerRegisterFileOperator.project_name self)
                             (FlightPathServerRegisterFileOperator.name self)
                             (FlightPathServerRegisterFileOperator.file_location self)
                             (FlightPathServerRegisterFileOperator.template self)))])
  /\ (forall (self : FlightPathServerRegisterAndRunOperator.t)
             (hook : FlightPathServerHook.t) (w w1 : World),
        FlightPathServerHook.__init__ env
          (Some (FlightPathServerRegisterAndRunOperator.flightpath_server_conn_id self)) w
        = (Return hook, w1) ->
        sent (snd (FlightPathServerRegisterAndRunOperator.execute env self w))
        = sent w ++ [request_of hook "/csvpath/register_and_run"
                       (Some (FlightPathServerHook.register_and_run_data
                                (FlightPathServerRegisterAndRunOperator.project_name self)
                                (FlightPathServerRegisterAndRunOperator.file_location self)
                                (FlightPathServerRegisterAndRunOperator.file_name self)
                                (FlightPathServerRegisterAndRunOperator.csvpaths_group_name self)
                                (Some (FlightPathServerRegisterAndRunOperator.method self))
                                (FlightPathServerRegisterAndRunOperator.file_template self)
                                (FlightPathServerRegisterAndRunOperator.run_template self)))])
  /\ (forall (self : FlightPathServerPullDataOperator.t) (hook : FlightPathServerHook.t)
             (w w1 : World),
        FlightPathServerHook.__init__ env
          (Some (FlightPathServerPullDataOperator.flightpath_server_conn_id self)) w
        = (Return hook, w1) ->
        sent (snd (FlightPathServerPullDataOperator.execute env self w))
        = sent w ++ [request_of hook "/find/get_file"
                       (Some (FlightPathServerHook.reference_data
                                (FlightPathServerPullDataOperator.project_name self)
                                (FlightPathServerPullDataOperator.reference self)))]).
Proof.
  repeat split; intros self hook w w1 Hinit;
    destruct (init_Return env _ _ _ _ Hinit) as (-> & _).
  - unfold FlightPathServerRegisterFileOperator.execute, bind. rewrite Hinit.
    unfold FlightPathServerHook.register_file.
    pose proof (call_api_POST_world hook "/csvpath/register_file"
                  (Some (FlightPathServerHook.register_file_data
                           (FlightPathServerRegisterFileOperator.project_name self)
                           (FlightPathServerRegisterFileOperator.name self)
                           (FlightPathServerRegisterFileOperator.file_location self)
                           (FlightPathServerRegisterFileOperator.template self))) w) as Hw.
    destruct (FlightPathServerHook._call_api _ _ _ _ _ _) as [[v|e] w2];
      cbn [snd] in Hw; subst w2; [|reflexivity].
    destruct v; reflexivity.
  - unfold FlightPathServerRegisterAndRunOperator.execute, bind. rewrite Hinit.
    unfold FlightPathServerHook.register_and_run.
    pose proof (call_api_POST_world hook "/csvpath/register_and_run"
                  (Some (FlightPathServerHook.register_and_run_data
                           (FlightPathServerRegisterAndRunOperator.project_name self)
                           (FlightPathServerRegisterAndRunOperator.file_location self)
                           (FlightPathServerRegisterAndRunOperator.file_name self)
                           (FlightPathServerRegisterAndRunOperator.csvpaths_group_name self)
                           (Some (FlightPathServerRegisterAndRunOperator.method self))
                           (FlightPathServerRegisterAndRunOperator.file_template self)
                           (FlightPathServerRegisterAndRunOperator.run_template self))) w)
      as Hw.
    destruct (FlightPathServerHook._call_api _ _ _ _ _ _) as [[v|e] w2];
      cbn [snd] in Hw; subst w2; [|reflexivity].
    destruct v; reflexivity.
  - unfold FlightPathServerPullDataOperator.execute, bind. rewrite Hinit.
    unfold FlightPathServerHook.get_file.
    pose proof (call_api_POST_world hook "/find/get_file"
                  (Some (FlightPathServerHook.reference_data
                           (FlightPathServerPullDataOperator.project_name self)
                           (FlightPathServerPullDataOperator.reference self))) w) as Hw.
    destruct (FlightPathServerHook._call_api _ _ _ _ _ _) as [[v|e] w2];
      cbn [snd] in Hw; subst w2; [|reflexivity].
    destruct (save_cases self v (after_post w (request_of hook "/find/get_file"
                (Some (FlightPathServerHook.reference_data
                         (FlightPathServerPullDataOperator.project_name self)
                         (FlightPathServerPullDataOperator.reference self))))))
      as [(e & ->) | (content & ->)]; reflexivity.
Qed.

(** X8: the two register operators return the JSON object of the server
    as it is; when the server's JSON is no object (a list, a string, a
    number, null), reading the reference for the log raises an
    AttributeError although the call succeeded, and the pull-data operator
    raises it too, before it decodes or writes anything. *)
Theorem operators_need_a_json_object :
  (forall (self : FlightPathServerRegisterFileOperator.t) (hook : FlightPathServerHook.t)
          (w w1 w2 : World) (v : value),
     FlightPathServerHook.__init__ env
       (Some (FlightPathServerRegisterFileOperator.flightpath_server_conn_id self)) w
     = (Return hook, w1) ->
     FlightPathServerHook.register_file env hook
       (FlightPathServerRegisterFileOperator.project_name self)
       (FlightPathServerRegisterFileOperator.name self)
       (FlightPathServerRegisterFileOperator.file_location self)
       (FlightPathServerRegisterFileOperator.template self) w1 = (Return v, w2) ->
     FlightPathServerRegisterFileOperator.execute env self w
     = (match v with VDict _ => Return v | _ => Raise (no_get v) end, w2))
  /\ (forall (self : FlightPathServerRegisterAndRunOperator.t)
             (hook : FlightPathServerHook.t) (w w1 w2 : World) (v : value),
        FlightPathServerHook.__init__ env
          (Some (FlightPathServerRegisterAndRunOperator.flightpath_server_conn_id self)) w
        = (Return hook, w1) ->
        FlightPathServerHook.register_and_run env hook
          (FlightPathServerRegisterAndRunOperator.project_name self)
          (FlightPathServerRegisterAndRunOperator.file_location self)
          (FlightPathServerRegisterAndRunOperator.file_name self)
          (FlightPathServerRegisterAndRunOperator.csvpaths_group_name self)
          (Some (FlightPathServerRegisterAndRunOperator.method self))
          (FlightPathServerRegisterAndRunOperator.file_template self)
          (FlightPathServerRegisterAndRunOperator.run_template self) w1 = (Return v, w2) ->
        FlightPathServerRegisterAndRunOperator.execute env self w
        = (match v with VDict _ => Return v | _ => Raise (no_get v) end, w2))
  /\ (forall (self : FlightPathServerPullDataOperator.t) (hook : FlightPathServerHook.t)
             (w w1 w2 : World) (v : value),
        FlightPathServerHook.__init__ env
          (Some (FlightPathServerPullDataOperator.flightpath_server_conn_id self)) w
        = (Return hook, w1) ->
        FlightPathServerHook.get_file env hook
          (FlightPathServerPullDataOperator.project_name self)
          (FlightPathServerPullDataOperator.reference self) w1 = (Return v, w2) ->
        (forall d, v <> VDict d) ->
        FlightPathServerPullDataOperator.execute env self w = (Raise (no_get v), w2)).
Proof.
  repeat split.
  - intros self hook w w1 w2 v Hinit Hcall.
    unfold FlightPathServerRegisterFileOperator.execute, bind. rewrite Hinit, Hcall.
    destruct v; reflexivity.
  - intros self hook w w1 w2 v Hinit Hcall.
    unfold FlightPathServerRegisterAndRunOperator.execute, bind. rewrite Hinit, Hcall.
    destruct v; reflexivity.
  - intros self hook w w1 w2 v Hinit Hcall Hv.
    unfold FlightPathServerPullDataOperator.execute, bind. rewrite Hinit, Hcall.
    destruct v; try reflexivity. now destruct (Hv d).
Qed.

(** X9: when the hook cannot be constructed (the connection is unknown,
    or lacks its base URL or its key), each operator raises the
    constructor's error and neither sends a request nor writes a file. *)
Theorem operators_fail_before_any_request (e : exn) (w w' : World) :
  (forall self : FlightPathServerRegisterFileOperator.t,
     FlightPathServerHook.__init__ env
       (Some (FlightPathServerRegisterFileOperator.flightpath_server_conn_id self)) w
     = (Raise e, w') ->
     FlightPathServerRegisterFileOperator.execute env self w = (Raise e, w))
  /\ (forall self : FlightPathServerRegisterAndRunOperator.t,
        FlightPathServerHook.__init__ env
          (Some (FlightPathServerRegisterAndRunOperator.flightpath_server_conn_id self)) w
        = (Raise e, w') ->
        FlightPathServerRegisterAndRunOperator.execute env self w = (Raise e, w))
  /\ (forall self : FlightPathServerPullDataOperator.t,
        FlightPathServerHook.__init__ env
          (Some (FlightPathServerPullDataOperator.flightpath_server_conn_id self)) w
        = (Raise e, w') ->
        FlightPathServerPullDataOperator.execute env self w = (Raise e, w)).
Proof.
  repeat split; intros self Hinit;
    match type of Hinit with
    | FlightPathServerHook.__init__ _ ?cid _ = _ => pose proof (init_world env cid w) as Hw
    end;
    rewrite Hinit in Hw; cbn in Hw; subst w'.
  - unfold FlightPathServerRegisterFileOperator.execute, bind. now rewrite Hinit.
  - unfold FlightPathServerRegisterAndRunOperator.execute, bind. now rewrite Hinit.
  - unfold FlightPathServerPullDataOperator.execute, bind. now rewrite Hinit.
Qed.

(** X11: when the [file] field is truthy and [base64.b64decode] refuses
    it (padding that does not fit, a character beyond ASCII, a value that
    is no string), the pull-data operator raises the decoder's error and
    the files are as before. *)
Theorem pull_data_decode_failure (self : FlightPathServerPullDataOperator.t)
  (w w1 w2 : World) (hook : FlightPathServerHook.t) (d : list (string * value))
  (v : value) (e : exn) :
  FlightPathServerHook.__init__ env
    (Some (FlightPathServerPullDataOperator.flightpath_server_conn_id self)) w
  = (Return hook, w1) ->
  FlightPathServerHook.get_file env hook
    (FlightPathServerPullDataOperator.project_name self)
    (FlightPathServerPullDataOperator.reference self) w1 = (Return (VDict d), w2) ->
  assoc_get d "file" = Some v ->
  truthy v = true ->
  b64decode v = inl e ->
  FlightPathServerPullDataOperator.execute env self w = (Raise e, w2)
  /\ files w2 = files w.
Proof.
  intros Hinit Hget Hd Hv Hb.
  split.
  - unfold FlightPathServerPullDataOperator.execute, bind. rewrite Hinit, Hget.
    unfold FlightPathServerPullDataOperator.save, bind, value_get, ret.
    rewrite Hd. cbn [with_default]. rewrite Hv. cbn [negb]. now rewrite Hb.
  - destruct (init_Return env _ _ _ _ Hinit) as (-> & _).
    rewrite <- (get_file_files env hook
                  (FlightPathServerPullDataOperator.project_name self)
                  (FlightPathServerPullDataOperator.reference self) w).
    now rewrite Hget.
Qed.

(** X12: when the content decodes and the output path cannot be opened
    for writing, the pull-data operator raises the error of [open] and
    the files are as before. *)
Theorem pull_data_open_failure (self : FlightPathServerPullDataOperator.t)
  (w w1 w2 : World) (hook : FlightPathServerHook.t) (d : list (string * value))
  (v : value) (content : list byte) (e : exn) :
  FlightPathServerHook.__init__ env
    (Some (FlightPathServerPullDataOperator.flightpath_server_conn_id self)) w
  = (Return hook, w1) ->
  FlightPathServerHook.get_file env hook
    (FlightPathServerPullDataOperator.project_name self)
    (FlightPathServerPullDataOperator.reference self) w1 = (Return (VDict d), w2) ->
  assoc_get d "file" = Some v ->
  truthy v = true ->
  b64decode v = inr content ->
  open_wb_error env (FlightPathServerPullDataOperator.output_path self) = Some e ->
  FlightPathServerPullDataOperator.execute env self w = (Raise e, w2)
  /\ files w2 = files w.
Proof.
  intros Hinit Hget Hd Hv Hb Ho.
  split.
  - unfold FlightPathServerPullDataOperator.execute, bind. rewrite Hinit, Hget.
    unfold FlightPathServerPullDataOperator.save, bind, value_get, ret.
    rewrite Hd. cbn [with_default]. rewrite Hv. cbn [negb]. rewrite Hb. cbn [lift ret].
    unfold write_binary_file. now rewrite Ho.
  - destruct (init_Return env _ _ _ _ Hinit) as (-> & _).
    rewrite <- (get_file_files env hook
                  (FlightPathServerPullDataOperator.project_name self)
                  (FlightPathServerPullDataOperator.reference self) w).
    now rewrite Hget.
Qed.

End TaskWrapperOutcomes.

(** ** base64: decoding what was encoded *)

Lemma all_bytes_complete (b : byte) : In b all_bytes.
Proof.
  apply in_map_iff. exists (N.to_nat (Byte.to_N b)). split.
  - destruct b; reflexivity.
  - apply in_seq. pose proof (Byte.to_N_bounded b). lia.
Qed.

Lemma forall_byte (f : byte -> bool) :
  forallb f all_bytes = true -> forall b, f b = true.
Proof. intros H b. rewrite forallb_forall in H. apply H, all_bytes_complete. Qed.

Lemma forall_byte2 (f : byte -> byte -> bool) :
  forallb (fun a => forallb (f a) all_bytes) all_bytes = true ->
  forall a b, f a b = true.
Proof. intros H a b. apply forall_byte. apply (forall_byte _ H a). Qed.

Lemma sextet_ok_spec (v : N) :
  sextet_ok v = true ->
  (N_of_ascii (b64_char v) =? 61)%N = false
  /\ (N_of_ascii (b64_char v) <? 128)%N = true
  /\ b64_value (b64_char v) = Some v.
Proof.
  unfold sextet_ok. intros H.
  apply andb_prop in H as [H H4]. apply andb_prop in H as [H H3].
  apply andb_prop in H as [_ H2].
  destruct (b64_value (b64_char v)) as [v'|]; [|discriminate].
  apply N.eqb_eq in H4. subst v'.
  destruct (N_of_ascii (b64_char v) =? 61)%N; [discriminate|]. auto.
Qed.

(** A group of one byte: both characters are read back, to that byte. *)
Lemma one_byte (b0 : byte) :
  sextet_ok (sextet0 b0) && sextet_ok (sextet1_last b0)
  && Byte.eqb (decoded0 (sextet0 b0) (sextet1_last b0)) b0 = true.
Proof. revert b0. apply forall_byte. vm_compute. reflexivity. Qed.

(** A group of two bytes. *)
Lemma two_bytes (b0 b1 : byte) :
  sextet_ok (sextet1 b0 b1) && sextet_ok (sextet2_last b1)
  && Byte.eqb (decoded0 (sextet0 b0) (sextet1 b0 b1)) b0
  && Byte.eqb (decoded1 (sextet1 b0 b1) (sextet2_last b1)) b1 = true.
Proof. revert b0 b1. apply forall_byte2. vm_compute. reflexivity. Qed.

(** The middle byte of a group of three. *)
Lemma three_bytes_mid (b0 b1 b2 : byte) :
  decoded1 (sextet1 b0 b1) (sextet2 b1 b2) = b1.
Proof.
  assert (H1 : forall a b,
             (N.land (sextet1 a b) 15 =? N.shiftr (Byte.to_N b) 4)%N = true).
  { apply forall_byte2. vm_compute. reflexivity. }
  assert (H2 : forall a b,
             Byte.eqb (to_byte (N.lor (N.shiftl (N.shiftr (Byte.to_N a) 4) 4)
                                  (N.shiftr (sextet2 a b) 2))) a = true).
  { apply forall_byte2. vm_compute. reflexivity. }
  unfold decoded1. specialize (H1 b0 b1). apply N.eqb_eq in H1. rewrite H1.
  apply Byte.byte_dec_bl, H2.
Qed.

(** The last byte of a group of three. *)
Lemma three_bytes_last (b1 b2 : byte) :
  sextet_ok (sextet2 b1 b2) && sextet_ok (sextet3 b2)
  && Byte.eqb (decoded2 (sextet2 b1 b2) (sextet3 b2)) b2 = true.
Proof. revert b1 b2. apply forall_byte2. vm_compute. reflexivity. Qed.

(** One step of the decoder on a character of the alphabet. *)
Lemma loop_sextet (v : N) (rest : list ascii) (quad_pos : nat) (leftchar : N)
  (pads : nat) (out : list byte) :
  sextet_ok v = true ->
  a2b_base64_loop (b64_char v :: rest) quad_pos leftchar pads out =
  match quad_pos with
  | O => a2b_base64_loop rest 1 v 0 out
  | 1%nat => a2b_base64_loop rest 2 (N.land v 15) 0
               (to_byte (N.lor (N.shiftl leftchar 2) (N.shiftr v 4)) :: out)
  | 2%nat => a2b_base64_loop rest 3 (N.land v 3) 0
               (to_byte (N.lor (N.shiftl leftchar 4) (N.shiftr v 2)) :: out)
  | _ => a2b_base64_loop rest 0 0 0 (to_byte (N.lor (N.shiftl leftchar 6) v) :: out)
  end.
Proof.
  intros H. apply sextet_ok_spec in H as (Hpad & _ & Hval).
  cbn [a2b_base64_loop]. rewrite Hpad, Hval. reflexivity.
Qed.

(** Induction on a list, three elements at a time. *)
Lemma list_ind3 {A : Type} (P : list A -> Prop) :
  P [] -> (forall a, P [a]) -> (forall a b, P [a; b]) ->
  (forall a b c l, P l -> P (a :: b :: c :: l)) ->
  forall l, P l.
Proof.
  intros H0 H1 H2 H3.
  assert (H : forall l, P l /\ (forall a, P (a :: l)) /\ (forall a b, P (a :: b :: l))).
  { induction l as [|x l (IH0 & IH1 & IH2)]; auto. }
  intros l. apply H.
Qed.


Lemma a2b_b2a_loop (data : list byte) :
  forall out, a2b_base64_loop (b2a_base64 data) 0 0 0 out = inr (rev out ++ data).
Proof.
  induction data as [|b0|b0 b1|b0 b1 b2 data IH] using list_ind3; intros out.
  - cbn. now rewrite app_nil_r.
  - pose proof (one_byte b0) as H.
    apply andb_prop in H as [H Hd0]. apply andb_prop in H as [H0 H1].
    apply Byte.byte_dec_bl in Hd0.
    cbn [b2a_base64]. fold (sextet0 b0) (sextet1_last b0).
    rewrite (loop_sextet _ _ _ _ _ _ H0), (loop_sextet _ _ _ _ _ _ H1).
    fold (decoded0 (sextet0 b0) (sextet1_last b0)). rewrite Hd0. cbn. reflexivity.
  - pose proof (one_byte b0) as H.
    apply andb_prop in H as [H _]. apply andb_prop in H as [H0 _].
    pose proof (two_bytes b0 b1) as H.
    apply andb_prop in H as [H Hd1]. apply andb_prop in H as [H Hd0].
    apply andb_prop in H as [H1 H2].
    apply Byte.byte_dec_bl in Hd0, Hd1.
    cbn [b2a_base64]. fold (sextet0 b0) (sextet1 b0 b1) (sextet2_last b1).
    rewrite (loop_sextet _ _ _ _ _ _ H0), (loop_sextet _ _ _ _ _ _ H1),
      (loop_sextet _ _ _ _ _ _ H2).
    fold (decoded0 (sextet0 b0) (sextet1 b0 b1))
         (decoded1 (sextet1 b0 b1) (sextet2_last b1)).
    rewrite Hd0, Hd1. cbn. now rewrite <- app_assoc.
  - pose proof (one_byte b0) as H.
    apply andb_prop in H as [H _]. apply andb_prop in H as [H0 _].
    pose proof (two_bytes b0 b1) as H.
    apply andb_prop in H as [H _]. apply andb_prop in H as [H Hd0].
    apply andb_prop in H as [H1 _].
    pose proof (three_bytes_last b1 b2) as H.
    apply andb_prop in H as [H Hd2]. apply andb_prop in H as [H2 H3].
    apply Byte.byte_dec_bl in Hd0, Hd2.
    cbn [b2a_base64]. fold (sextet0 b0) (sextet1 b0 b1) (sextet2 b1 b2) (sextet3 b2).
    rewrite (loop_sextet _ _ _ _ _ _ H0), (loop_sextet _ _ _ _ _ _ H1),
      (loop_sextet _ _ _ _ _ _ H2), (loop_sextet _ _ _ _ _ _ H3).
    fold (decoded0 (sextet0 b0) (sextet1 b0 b1))
         (decoded1 (sextet1 b0 b1) (sextet2 b1 b2))
         (decoded2 (sextet2 b1 b2) (sextet3 b2)).
    rewrite Hd0, Hd2, three_bytes_mid, IH.
    cbn [rev]. now rewrite <- !app_assoc.
Qed.

Lemma b2a_is_ascii (data : list byte) :
  forallb (fun c => (N_of_ascii c <? 128)%N) (b2a_base64 data) = true.
Proof.
  induction data as [|b0|b0 b1|b0 b1 b2 data IH] using list_ind3.
  - reflexivity.
  - pose proof (one_byte b0) as H.
    apply andb_prop in H as [H _]. apply andb_prop in H as [H0 H1].
    apply sextet_ok_spec in H0 as (_ & H0 & _). apply sextet_ok_spec in H1 as (_ & H1 & _).
    cbn [b2a_base64 forallb]. fold (sextet0 b0) (sextet1_last b0).
    rewrite H0, H1. reflexivity.
  - pose proof (one_byte b0) as H.
    apply andb_prop in H as [H _]. apply andb_prop in H as [H0 _].
    pose proof (two_bytes b0 b1) as H.
    apply andb_prop in H as [H _]. apply andb_prop in H as [H _].
    apply andb_prop in H as [H1 H2].
    apply sextet_ok_spec in H0 as (_ & H0 & _). apply sextet_ok_spec in H1 as (_ & H1 & _).
    apply sextet_ok_spec in H2 as (_ & H2 & _).
    cbn [b2a_base64 forallb]. fold (sextet0 b0) (sextet1 b0 b1) (sextet2_last b1).
    rewrite H0, H1, H2. reflexivity.
  - pose proof (one_byte b0) as H.
    apply andb_prop in H as [H _]. apply andb_prop in H as [H0 _].
    pose proof (two_bytes b0 b1) as H.
    apply andb_prop in H as [H _]. apply andb_prop in H as [H _].
    apply andb_prop in H as [H1 _].
    pose proof (three_bytes_last b1 b2) as H.
    apply andb_prop in H as [H _]. apply andb_prop in H as [H2 H3].
    apply sextet_ok_spec in H0 as (_ & H0 & _). apply sextet_ok_spec in H1 as (_ & H1 & _).
    apply sextet_ok_spec in H2 as (_ & H2 & _). apply sextet_ok_spec in H3 as (_ & H3 & _).
    cbn [b2a_base64 forallb]. fold (sextet0 b0) (sextet1 b0 b1) (sextet2 b1 b2) (sextet3 b2).
    rewrite H0, H1, H2, H3, IH. reflexivity.
Qed.

Lemma b64decode_b64encode_eq (data : list byte) :
  b64decode (VStr (b64encode data)) = inr data.
Proof.
  unfold b64decode, b64encode, is_ascii, a2b_base64.
  rewrite list_ascii_of_string_of_list_ascii, b2a_is_ascii, a2b_b2a_loop. reflexivity.
Qed.

Lemma b64encode_empty (data : list byte) : b64encode data = EmptyString <-> data = [].
Proof.
  split; [|intros ->; reflexivity].
  destruct data as [|b0 [|b1 [|b2 rest]]]; [reflexivity| | |]; discriminate.
Qed.

(** X13: [base64.b64decode] gives back every byte string that
    [base64.b64encode] encoded, and the encoding is empty for the empty
    byte string only. *)
Theorem b64decode_b64encode (data : list byte) :
  b64decode (VStr (b64encode data)) = inr data
  /\ (b64encode data = EmptyString <-> data = []).
Proof. split; [apply b64decode_b64encode_eq | apply b64encode_empty]. Qed.



Section PullRoundTrip.
Variable env : Env.

(** X15: when the [file] field of the get-file response is the base64
    encoding of a byte string, the pull-data operator writes exactly that
    byte string to its output path if it is not empty (and [open]
    accepts the path); the encoding of the empty byte string is the empty
    string, and the operator takes its no-content branch and writes
    nothing: an empty remote file cannot be pulled. *)
Theorem pull_data_round_trip (self : FlightPathServerPullDataOperator.t)
  (w w1 w2 : World) (hook : FlightPathServerHook.t) (d : list (string * value))
  (content : list byte) :
  FlightPathServerHook.__init__ env
    (Some (FlightPathServerPullDataOperator.flightpath_server_conn_id self)) w
  = (Return hook, w1) ->
  FlightPathServerHook.get_file env hook
    (FlightPathServerPullDataOperator.project_name self)
    (FlightPathServerPullDataOperator.reference self) w1 = (Return (VDict d), w2) ->
  assoc_get d "file" = Some (VStr (b64encode content)) ->
  (content <> [] ->
   open_wb_error env (FlightPathServerPullDataOperator.output_path self) = None ->
   exists w' : World,
     FlightPathServerPullDataOperator.execute env self w
     = (Return (FlightPathServerPullDataOperator.output_path self), w')
     /\ files w' !! FlightPathServerPullDataOperator.output_path self = Some content)
  /\ (content = [] ->
      FlightPathServerPullDataOperator.execute env self w = (Raise no_file_content, w2)).
Proof.
  intros Hinit Hget Hd.
  unfold FlightPathServerPullDataOperator.execute, bind. rewrite Hinit, Hget.
  split.
  - intros Hc Ho.
    exists (after_write w2 (FlightPathServerPullDataOperator.output_path self) content).
    split.
    + apply (save_content env self d (b64encode content) content w2 Hd); [|apply b64decode_b64encode_eq|exact Ho].
      intros He. apply Hc, b64encode_empty, He.
    + cbn [after_write files]. apply lookup_insert_eq.
  - intros ->. apply save_no_content.
    intros v Hv. rewrite Hd in Hv. injection Hv as <-. reflexivity.
Qed.

End PullRoundTrip.

(** ** Concrete runs of the further properties *)

(** The get-file call of the repository's test returns the parsed object. *)
Lemma call_api_returns_parsed_body_witness :
  FlightPathServerHook._call_api (test_env encoded_content) test_hook "/find/get_file" "POST"
    (Some (FlightPathServerHook.reference_data "test_project" "file_ref_xyz")) world0
  = (Return (VDict [("file", VStr "YmFzZTY0IGVuY29kZWQgY29udGVudA==")]),
     after_post world0
       (request_of test_hook "/find/get_file"
          (Some (FlightPathServerHook.reference_data "test_project" "file_ref_xyz")))).
Proof.
  apply (call_api_returns_parsed_body (test_env encoded_content) test_hook "/find/get_file"
           _ world0 encoded_content).
  - reflexivity.
  - cbn. lia.
  - reflexivity.
Defined.

(** A server that cannot be reached. *)
Lemma call_api_post_failure_witness :
  FlightPathServerHook._call_api offline_env test_hook "/find/get_file" "POST" None world0
  = (Raise (mk_exn AirflowException
              ("FlightPath Server API call failed: " +:+ exc_str connection_refused)),
     after_post world0 (request_of test_hook "/find/get_file" None)).
Proof.
  apply (proj1 (call_api_post_failure offline_env test_hook "/find/get_file" None world0
                  connection_refused eq_refl)).
  reflexivity.
Defined.

(** The error that comes out for a server that cannot be reached. *)
Lemma call_api_raises_no_library_error_witness :
  isinstance (mk_exn AirflowException
                ("FlightPath Server API call failed: " +:+ exc_str connection_refused))
    RequestException = false
  /\ isinstance (mk_exn AirflowException
                   ("FlightPath Server API call failed: " +:+ exc_str connection_refused))
       JSONDecodeError = false.
Proof.
  apply (call_api_raises_no_library_error offline_env test_hook "/find/get_file" "POST" None
           world0 (after_post world0 (request_of test_hook "/find/get_file" None))).
  reflexivity.
Defined.

(** A connection without a key, and a connection store without the
    connection. *)
Lemma init_error_messages_witness :
  FlightPathServerHook.__init__ no_key_env None world0 = (Raise no_api_key, world0)
  /\ FlightPathServerHook.__init__ no_connection_env None world0
     = (Raise (mk_exn AirflowNotFoundException
                 "The conn_id `flightpath_server_default` isn't defined"), world0).
Proof.
  split.
  - apply (proj2 (proj1 (init_error_messages no_key_env None world0)
                    no_key_connection eq_refl)).
    + intros [H|H]; discriminate H.
    + left. reflexivity.
  - apply (proj2 (init_error_messages no_connection_env None world0)). reflexivity.
Defined.

(** The one request of the register-file operator of the repository's test. *)
Lemma operators_send_one_request_witness :
  sent (snd (FlightPathServerRegisterFileOperator.execute (test_env no_file)
               register_file_task world0))
  = [ {| req_url := "http://localhost:8000/csvpath/register_file";
         req_headers := [("access_token", "test_api_key");
                         ("Content-Type", "application/json");
                         ("Accept", "application/json")];
         req_data :=
           dq "{'project_name': 'test_project', 'name': 'test_file.csv', 'file_location': '/data/test_file.csv'}" |} ].
Proof.
  exact (proj1 (operators_send_one_request (test_env no_file))
           register_file_task test_hook world0 world0 eq_refl).
Defined.

(** A server that answers a registration with a JSON list. *)
Lemma operators_need_a_json_object_witness :
  FlightPathServerRegisterFileOperator.execute (test_env json_list) register_file_task world0
  = (Raise (mk_exn AttributeError "'list' object has no attribute 'get'"),
     after_post world0
       (request_of test_hook "/csvpath/register_file"
          (Some (FlightPathServerHook.register_file_data "test_project" "test_file.csv"
                   "/data/test_file.csv" None)))).
Proof.
  apply (proj1 (operators_need_a_json_object (test_env json_list))
           register_file_task test_hook world0 world0 _ (VList [])).
  - reflexivity.
  - vm_compute. reflexivity.
Defined.

(** A pull with an unknown connection sends and writes nothing. *)
Lemma operators_fail_before_any_request_witness :
  FlightPathServerPullDataOperator.execute no_connection_env pull_data_task world0
  = (Raise (mk_exn AirflowNotFoundException
              "The conn_id `flightpath_server_default` isn't defined"), world0).
Proof.
  apply (proj2 (proj2 (operators_fail_before_any_request no_connection_env
                         (mk_exn AirflowNotFoundException
                            "The conn_id `flightpath_server_default` isn't defined")
                         world0 world0))).
  reflexivity.
Defined.

(** A [file] without its padding: the decoder's error, and no file. *)
Lemma pull_data_decode_failure_witness :
  FlightPathServerPullDataOperator.execute (test_env unpadded_file) pull_data_task world0
  = (Raise Incorrect_padding, after_post world0 get_file_request)
  /\ files (after_post world0 get_file_request) = files world0.
Proof.
  apply (pull_data_decode_failure (test_env unpadded_file) pull_data_task world0 world0
           (after_post world0 get_file_request) test_hook [("file", VStr "YQ")]
           (VStr "YQ") Incorrect_padding).
  - reflexivity.
  - vm_compute. reflexivity.
  - reflexivity.
  - reflexivity.
  - reflexivity.
Defined.

(** The pull of the repository's test where nothing can be written. *)
Lemma pull_data_open_failure_witness :
  FlightPathServerPullDataOperator.execute (read_only_env encoded_content) pull_data_task
    world0
  = (Raise permission_denied, after_post world0 get_file_request)
  /\ files (after_post world0 get_file_request) = files world0.
Proof.
  apply (pull_data_open_failure (read_only_env encoded_content) pull_data_task world0 world0
           (after_post world0 get_file_request) test_hook
           [("file", VStr "YmFzZTY0IGVuY29kZWQgY29udGVudA==")]
           (VStr "YmFzZTY0IGVuY29kZWQgY29udGVudA==") (bytes_of "base64 encoded content")).
  - reflexivity.
  - vm_compute. reflexivity.
  - reflexivity.
  - reflexivity.
  - vm_compute. reflexivity.
  - reflexivity.
Defined.


(** The pull of the repository's test, its [file] read as an encoding. *)
Lemma pull_data_round_trip_witness :
  exists w' : World,
    FlightPathServerPullDataOperator.execute (test_env encoded_content) pull_data_task world0
    = (Return "/tmp/test_output.txt", w')
    /\ files w' !! "/tmp/test_output.txt" = Some (bytes_of "base64 encoded content").
Proof.
  apply (proj1 (pull_data_round_trip (test_env encoded_content) pull_data_task world0 world0
                  (after_post world0 get_file_request) test_hook
                  [("file", VStr "YmFzZTY0IGVuY29kZWQgY29udGVudA==")]
                  (bytes_of "base64 encoded content") eq_refl eq_refl eq_refl)).
  - discriminate.
  - reflexivity.
Defined.
